(** * EcoVision: derived score, record stores, session start-up and notifications

    A shallow embedding of the four React context providers of the
    dashboard (classification store, report store, authentication,
    notifications) and the properties of their store logic.

    Conventions of the embedding.
    - Strings are [string]; [String.prototype.includes] is [Js.includes].
    - Integers held in JS numbers (scores, counters, millisecond clocks) are
      [Z]; every value stays far below 2^53, where JS arithmetic is exact.
    - [Date] values are their [getTime()] in milliseconds.  One call of a
      provider function is taken at one clock reading [now].
    - A provider function is a closure created by one render.  What the
      closure captured (the signed-in user and the state value of that
      render) is a [Render]; what it acts on (the React state cell behind
      [setX(prev => ...)] and [localStorage]) is a [Store].  A render is in
      sync with a store when its snapshot is the cell's current value.
    - [showSuccess]/[showError]/[showInfo] calls made by the stores are
      returned as a list of [Request]s, in call order. *)

From Stdlib Require Import ZArith QArith List Permutation Sorted Lia.
From Stdlib Require Import Strings.String Strings.Ascii.
From stdpp Require Import base option list strings pretty gmap.

(** ** JavaScript string operations used by the stores *)

Module Js.

(** [s.includes(sub)]: [sub] occurs in [s] as a contiguous run, compared
    code unit by code unit (case-sensitive). *)
Fixpoint includes (s sub : string) : bool :=
  String.prefix sub s ||
  match s with
  | EmptyString => false
  | String _ rest => includes rest sub
  end.

(** ASCII lower-casing, used only by the case-insensitive containment of
    the written formula. *)
Definition lower_ascii (c : ascii) : ascii :=
  let n := nat_of_ascii c in
  if (65 <=? n)%nat && (n <=? 90)%nat then ascii_of_nat (n + 32) else c.

Fixpoint toLowerCase (s : string) : string :=
  match s with
  | EmptyString => EmptyString
  | String c rest => String (lower_ascii c) (toLowerCase rest)
  end.

Definition includes_ci (s sub : string) : bool :=
  includes (toLowerCase s) (toLowerCase sub).

(** [`${n}`] and [n.toString()] for an integer [n]. *)
Definition toString (n : Z) : string := pretty n.

(** From here on a character of [string] is a UTF-16 code unit below 256
    (the Latin-1 range); on such strings the functions below are the
    built-ins exactly. *)

(** The white space and line terminators [trim] strips. *)
Definition isWhiteSpace (c : ascii) : bool :=
  let n := nat_of_ascii c in
  (n =? 9)%nat || (n =? 10)%nat || (n =? 11)%nat || (n =? 12)%nat
  || (n =? 13)%nat || (n =? 32)%nat || (n =? 160)%nat.

Fixpoint trimStart (s : string) : string :=
  match s with
  | EmptyString => EmptyString
  | String c rest => if isWhiteSpace c then trimStart rest else s
  end.

Fixpoint trimEnd (s : string) : string :=
  match s with
  | EmptyString => EmptyString
  | String c rest =>
      match trimEnd rest with
      | EmptyString => if isWhiteSpace c then EmptyString else String c EmptyString
      | kept => String c kept
      end
  end.

(** [s.trim()] *)
Definition trim (s : string) : string := trimEnd (trimStart s).

(** [s.toLowerCase()]: A-Z and the accented capitals of Latin-1. *)
Definition lower_unit (c : ascii) : ascii :=
  let n := nat_of_ascii c in
  if ((65 <=? n)%nat && (n <=? 90)%nat)
     || ((192 <=? n)%nat && (n <=? 214)%nat)
     || ((216 <=? n)%nat && (n <=? 222)%nat)
  then ascii_of_nat (n + 32) else c.

Fixpoint lowerCase (s : string) : string :=
  match s with
  | EmptyString => EmptyString
  | String c rest => String (lower_unit c) (lowerCase rest)
  end.

(** [s.split(sep)] for a one-character separator. *)
Fixpoint split (sep : ascii) (s : string) : list string :=
  match s with
  | EmptyString => [EmptyString]
  | String c rest =>
      if Ascii.eqb c sep then EmptyString :: split sep rest
      else
        match split sep rest with
        | piece :: pieces => String c piece :: pieces
        | [] => [String c EmptyString]
        end
  end.

(** The names every object literal inherits from [Object.prototype]. *)
Definition objectPrototypeNames : list string :=
  ["constructor"; "__proto__"; "__defineGetter__"; "__defineSetter__";
   "__lookupGetter__"; "__lookupSetter__"; "hasOwnProperty";
   "isPrototypeOf"; "propertyIsEnumerable"; "toLocaleString"; "toString";
   "valueOf"].

End Js.

(** ** AuthContext: identities and session start-up *)

Module Auth.

Inductive Role := RoleUser | RoleAdmin.
Inductive UserType := General | AdminType.

Record User := {
  id : string;
  name : string;
  email : string;
  role : Role;
  userType : UserType;
  achievements : list string;
  classificationsCount : Z;
  avatar : option string;
  googleId : option string;
  emailVerified : bool;
  createdAt : string;
  lastLogin : string;
  quizScore : option Z;
  totalClassifications : Z;
  certificateEligible : bool;
  bio : option string;
  location : option string;
  website : option string
}.

(** The payload [jwtDecode] yields: [{ user, iat, exp }], [exp] in seconds. *)
Record TokenPayload := {
  payload_user : User;
  iat : Z;
  exp : Z
}.

(** The provider's two state cells. *)
Record AuthState := {
  user : option User;
  isLoading : bool
}.

Inductive Effect :=
| ToastError (message : string)
| ConsoleError (message : string)
| ConsoleLog (message : string).

Definition is_admin_role (r : Role) : bool :=
  match r with RoleAdmin => true | RoleUser => false end.

Definition is_admin_type (t : UserType) : bool :=
  match t with AdminType => true | General => false end.

(** [isAdmin: user?.role === 'admin' || user?.userType === 'admin'] *)
Definition isAdmin (u : option User) : bool :=
  match u with
  | Some u => is_admin_role (role u) || is_admin_type (userType u)
  | None => false
  end.

(** The identity [signup] registers: its [newUser] literal, for the
    trimmed name, the lower-cased email and the requested user type, at
    clock [now] whose ISO text is [nowIso]. *)
Definition newUser (now : Z) (nowIso name email : string)
    (requested : UserType) : User :=
  {| id := "user-" +:+ Js.toString now;
     name := name;
     email := email;
     role := if is_admin_type requested then RoleAdmin else RoleUser;
     userType := requested;
     achievements := [];
     classificationsCount := 0;
     avatar := None;
     googleId := None;
     emailVerified := true;
     createdAt := nowIso;
     lastLogin := nowIso;
     quizScore := None;
     totalClassifications := 0;
     certificateEligible := false;
     bio := Some "";
     location := Some "";
     website := Some "" |}.

(** [isAuthenticated: !!user] *)
Definition isAuthenticated (u : option User) : bool :=
  match u with Some _ => true | None => false end.

(** [updateLastLogin] only logs. *)
Definition updateLastLogin (userId : string) : list Effect :=
  [ConsoleLog ("Updating last login for user: " +:+ userId)].

(** [initializeAuth], run once on mount.  [jwtDecode] is the external
    decoder: [None] stands for its exception on a malformed token.
    [token] is the [localStorage] item ['token'], returned as left behind. *)
Definition initializeAuth (jwtDecode : string -> option TokenPayload)
    (now : Z) (st : AuthState) (token : option string)
  : AuthState * option string * list Effect :=
  match token with
  | Some t =>
      match jwtDecode t with
      | Some decoded =>
          if (exp decoded * 1000 >? now)%Z then
            ({| user := Some (payload_user decoded); isLoading := false |},
             Some t,
             updateLastLogin (id (payload_user decoded)))
          else
            ({| user := user st; isLoading := false |},
             None,
             [ToastError "Session expired. Please login again."])
      | None =>
          ({| user := user st; isLoading := false |},
           None,
           [ConsoleError "Token validation error:"])
      end
  | None => ({| user := user st; isLoading := false |}, None, [])
  end.

(** The state the provider mounts with: [useState(null)], [useState(true)]. *)
Definition mount : AuthState := {| user := None; isLoading := true |}.

End Auth.

(** ** NotificationContext: the capped, de-duplicated notification buffer *)

Module Notifications.

Inductive Kind := success | error | info | warning.

Record Notification := {
  id : string;
  type : Kind;
  title : string;
  message : string;
  timestamp : Z;
  read : bool
}.

(** A [toast.*] call of the toast library. *)
Record Toast := {
  toast_kind : Kind;
  toast_message : string
}.

(** A [showSuccess(message, title?)]-style call made by another provider. *)
Record Request := {
  req_kind : Kind;
  req_message : string;
  req_title : option string
}.

Definition kind_eqb (a b : Kind) : bool :=
  match a, b with
  | success, success | error, error | info, info | warning, warning => true
  | _, _ => false
  end.

(** [addNotification]; the state update is [prev => [new, ...prev.slice(0, 9)]]. *)
Definition addNotification (now : Z) (k : Kind) (ttl msg : string)
    (prev : list Notification) : list Notification * list Toast :=
  let newNotification :=
    {| id := Js.toString now; type := k; title := ttl; message := msg;
       timestamp := now; read := false |} in
  (newNotification :: take 9 prev,
   [{| toast_kind := k; toast_message := msg |}]).

Definition markAsRead (target : string) (prev : list Notification)
  : list Notification :=
  List.map (fun n =>
    if String.eqb (id n) target
    then {| id := id n; type := type n; title := title n;
            message := message n; timestamp := timestamp n; read := true |}
    else n) prev.

Definition clearNotifications : list Notification := [].

Definition unreadCount (notifications : list Notification) : nat :=
  length (List.filter (fun n => negb (read n)) notifications).

(** The [notifications.some(...)] test shared by the four [show*] functions;
    it scans the render's snapshot. *)
Definition isDuplicate (k : Kind) (notifications : list Notification)
    (now : Z) (msg : string) : bool :=
  List.existsb (fun n =>
    String.eqb (message n) msg && kind_eqb (type n) k &&
    (now - timestamp n <? 5000)%Z) notifications.

Definition showSuccess (notifications : list Notification) (now : Z)
    (msg : string) (ttl : option string) (prev : list Notification)
  : list Notification * list Toast :=
  if negb (isDuplicate success notifications now msg)
  then addNotification now success (default "Success" ttl) msg prev
  else (prev, []).

Definition showError (notifications : list Notification) (now : Z)
    (msg : string) (ttl : option string) (prev : list Notification)
  : list Notification * list Toast :=
  if negb (isDuplicate error notifications now msg)
  then addNotification now error (default "Error" ttl) msg prev
  else (prev, []).

Definition showInfo (notifications : list Notification) (now : Z)
    (msg : string) (ttl : option string) (prev : list Notification)
  : list Notification * list Toast :=
  if negb (isDuplicate info notifications now msg)
  then addNotification now info (default "Information" ttl) msg prev
  else (prev, []).

Definition showWarning (notifications : list Notification) (now : Z)
    (msg : string) (ttl : option string) (prev : list Notification)
  : list Notification * list Toast :=
  if negb (isDuplicate warning notifications now msg)
  then addNotification now warning (default "Warning" ttl) msg prev
  else (prev, []).

(** [notify(kind, title, message)]: the [show*] function of that kind. *)
Definition notify (k : Kind) (notifications : list Notification) (now : Z)
    (msg : string) (ttl : option string) (prev : list Notification)
  : list Notification * list Toast :=
  match k with
  | success => showSuccess notifications now msg ttl prev
  | error => showError notifications now msg ttl prev
  | info => showInfo notifications now msg ttl prev
  | warning => showWarning notifications now msg ttl prev
  end.

(** A timed call, and a run of calls each made from a render that is in
    sync with the buffer (a re-render separates consecutive calls). *)
Record Call := {
  call_time : Z;
  call_kind : Kind;
  call_message : string;
  call_title : option string
}.

Definition step (buffer : list Notification) (c : Call) : list Notification :=
  fst (notify (call_kind c) buffer (call_time c) (call_message c)
         (call_title c) buffer).

(** Everything the context lets a consumer do to the buffer. *)
Inductive Op :=
| Notify (c : Call)
| MarkAsRead (target : string)
| Clear.

Definition apply (buffer : list Notification) (o : Op) : list Notification :=
  match o with
  | Notify c => step buffer c
  | MarkAsRead target => markAsRead target buffer
  | Clear => clearNotifications
  end.

Definition run (ops : list Op) (buffer : list Notification)
  : list Notification :=
  fold_left apply ops buffer.

(** The default of the [title] parameter of each [show*] function. *)
Definition default_title (k : Kind) : string :=
  match k with
  | success => "Success"
  | error => "Error"
  | info => "Information"
  | warning => "Warning"
  end.

(** Two entries that de-duplication treats as the same notification. *)
Definition same_key (a b : Notification) : Prop :=
  type a = type b /\ message a = message b.

(** No entry is followed (towards the older end) by an entry of the same
    key stamped less than 5 seconds before it. *)
Fixpoint spaced (buffer : list Notification) : Prop :=
  match buffer with
  | [] => True
  | n :: older =>
      (forall m, In m older -> same_key n m ->
                 (5000 <= timestamp n - timestamp m)%Z)
      /\ spaced older
  end.

End Notifications.

(** ** ClassificationContext: the classification record store *)

Module Classification.

Import Notifications.

Inductive SafetyLevel := low | medium | high.

(** ['Highly Reusable' | 'Moderate' | 'Non-reusable'] *)
Inductive ReusabilityLabel := HighlyReusable | Moderate | NonReusable.

Record Location := {
  latitude : Q;
  longitude : Q;
  city : string;
  country : string
}.

Record ClassificationResult := {
  id : string;
  userId : string;
  itemName : string;
  category : string;
  hazardousMaterials : list string;
  safetyLevel : SafetyLevel;
  recommendations : list string;
  confidence : Q;
  reusabilityScore : Z;
  reusabilityLabel : ReusabilityLabel;
  imageUrl : string;
  timestamp : Z;
  location : option Location
}.

(** [Omit<ClassificationResult, 'id' | 'userId' | 'timestamp'>]: what a
    caller hands to [addClassification]; score and label are part of it. *)
Module Draft.
Record t := {
  itemName : string;
  category : string;
  hazardousMaterials : list string;
  safetyLevel : SafetyLevel;
  recommendations : list string;
  confidence : Q;
  reusabilityScore : Z;
  reusabilityLabel : ReusabilityLabel;
  imageUrl : string;
  location : option Location
}.

(** The same draft with another caller-chosen score and label. *)
Definition supplying (d : t) (score : Z) (label : ReusabilityLabel) : t :=
  {| itemName := itemName d;
     category := category d;
     hazardousMaterials := hazardousMaterials d;
     safetyLevel := safetyLevel d;
     recommendations := recommendations d;
     confidence := confidence d;
     reusabilityScore := score;
     reusabilityLabel := label;
     imageUrl := imageUrl d;
     location := location d |}.
End Draft.

Definition calculateReusabilityScore (itemName category : string)
    (hazardousMaterials : list string) : Z :=
  let score := 70%Z in
  let score := (score - Z.of_nat (length hazardousMaterials) * 15)%Z in
  let score :=
    if Js.includes category "Battery" then (score - 30)%Z else score in
  let score :=
    if Js.includes category "Cable" || Js.includes category "Accessory"
    then (score + 20)%Z else score in
  let score :=
    if Js.includes category "Phone" || Js.includes category "Computer"
    then (score + 10)%Z else score in
  let score := Z.max 0 (Z.min 100 score) in
  score.

Definition getReusabilityLabel (score : Z) : ReusabilityLabel :=
  if (score >=? 70)%Z then HighlyReusable
  else if (score >=? 40)%Z then Moderate
  else NonReusable.

(** The written formula, parametric in the containment test it names. *)
Definition spec_score (contains : string -> string -> bool)
    (category : string) (count : Z) : Z :=
  let clamp lo hi v := if (v <? lo)%Z then lo else if (hi <? v)%Z then hi else v in
  let battery := if contains category "Battery" then 30%Z else 0%Z in
  let cable :=
    if contains category "Cable" || contains category "Accessory"
    then 20%Z else 0%Z in
  let phone :=
    if contains category "Phone" || contains category "Computer"
    then 10%Z else 0%Z in
  clamp 0%Z 100%Z (70 - 15 * count - battery + cable + phone)%Z.

(** [localStorage] as this provider reads and writes it: the
    ['registeredUsers'] list and the per-key record lists. *)
Record LocalStorage := {
  registeredUsers : list Auth.User;
  items : gmap string (list ClassificationResult)
}.

(** [`classifications_${id}`] *)
Definition key (userId : string) : string := "classifications_" +:+ userId.

(** [JSON.parse(localStorage.getItem(k) || '[]')] *)
Definition getItem (k : string) (ls : LocalStorage)
  : list ClassificationResult :=
  default [] (items ls !! k).

Definition setItem (k : string) (v : list ClassificationResult)
    (ls : LocalStorage) : LocalStorage :=
  {| registeredUsers := registeredUsers ls; items := <[k := v]> (items ls) |}.

Record Render := {
  user : option Auth.User;
  classifications : list ClassificationResult
}.

Record Store := {
  cell : list ClassificationResult;
  storage : LocalStorage
}.

(** The effect run on mount and on every change of [user]. *)
Definition loadClassifications (u : option Auth.User) (ls : LocalStorage)
  : list ClassificationResult :=
  match u with
  | Some u => getItem (key (Auth.id u)) ls
  | None => []
  end.

Definition addClassification (rd : Render) (now : Z) (result : Draft.t)
    (s : Store) : Store * list Request :=
  match user rd with
  | None =>
      (s, [{| req_kind := error;
              req_message := "You must be logged in to classify items";
              req_title := None |}])
  | Some u =>
      let reusabilityScore :=
        calculateReusabilityScore (Draft.itemName result)
          (Draft.category result) (Draft.hazardousMaterials result) in
      let newClassification :=
        {| itemName := Draft.itemName result;
           category := Draft.category result;
           hazardousMaterials := Draft.hazardousMaterials result;
           safetyLevel := Draft.safetyLevel result;
           recommendations := Draft.recommendations result;
           confidence := Draft.confidence result;
           imageUrl := Draft.imageUrl result;
           location := Draft.location result;
           id := "classification-" +:+ Js.toString now;
           userId := Auth.id u;
           timestamp := now;
           reusabilityScore := reusabilityScore;
           reusabilityLabel := getReusabilityLabel reusabilityScore |} in
      let updatedClassifications := newClassification :: classifications rd in
      ({| cell := updatedClassifications;
          storage := setItem (key (Auth.id u)) updatedClassifications
                       (storage s) |},
       [{| req_kind := success;
           req_message :=
             "Successfully classified " +:+ Draft.itemName result +:+ "! " +:+
             (if (0 <? length (Draft.hazardousMaterials result))%nat
              then "Hazardous materials detected."
              else "No hazardous materials found.");
           req_title := Some "Classification Complete" |}])
  end.

Definition getUserClassifications (rd : Render) : list ClassificationResult :=
  match user rd with
  | None => []
  | Some u =>
      List.filter (fun c => String.eqb (userId c) (Auth.id u))
        (classifications rd)
  end.

(** [Array.prototype.sort] with the comparator
    [(a, b) => time(b) - time(a)]: newest first, stable. *)
Fixpoint insert_newest (x : ClassificationResult)
    (l : list ClassificationResult) : list ClassificationResult :=
  match l with
  | [] => [x]
  | y :: rest =>
      if (timestamp y >? timestamp x)%Z then y :: insert_newest x rest
      else x :: y :: rest
  end.

Definition sort_newest (l : list ClassificationResult)
  : list ClassificationResult :=
  fold_right insert_newest [] l.

Definition getAllClassifications (rd : Render) (ls : LocalStorage)
  : list ClassificationResult :=
  if negb (Auth.isAdmin (user rd)) then getUserClassifications rd
  else
    let allUsers := registeredUsers ls in
    let allClassifications :=
      fold_left (fun acc u => acc ++ getItem (key (Auth.id u)) ls)
        allUsers [] in
    sort_newest allClassifications.

(** The render that follows a store change for the same signed-in user. *)
Definition rerender (u : option Auth.User) (s : Store) : Render :=
  {| user := u; classifications := cell s |}.

(** [localStorage.removeItem(k)] *)
Definition removeItem (k : string) (ls : LocalStorage) : LocalStorage :=
  {| registeredUsers := registeredUsers ls; items := delete k (items ls) |}.

Definition has_id (target : string) (c : ClassificationResult) : bool :=
  String.eqb (id c) target.

(** [classification.userId !== user?.id] *)
Definition not_owner (c : ClassificationResult) (u : option Auth.User) : bool :=
  match u with
  | Some u => negb (String.eqb (userId c) (Auth.id u))
  | None => true
  end.

Definition deleteClassification (rd : Render) (target : string) (s : Store)
  : Store * list Request :=
  match List.find (has_id target) (classifications rd) with
  | None =>
      (s, [{| req_kind := error; req_message := "Classification not found";
              req_title := None |}])
  | Some classification =>
      if negb (Auth.isAdmin (user rd)) && not_owner classification (user rd)
      then
        (s, [{| req_kind := error;
                req_message := "You can only delete your own classifications";
                req_title := None |}])
      else
        let updatedClassifications :=
          List.filter (fun c => negb (has_id target c)) (classifications rd) in
        ({| cell := updatedClassifications;
            storage :=
              match user rd with
              | Some u =>
                  setItem (key (Auth.id u)) updatedClassifications (storage s)
              | None => storage s
              end |},
         [{| req_kind := success;
             req_message := "Classification deleted successfully";
             req_title := None |}])
  end.

Definition resetUserClassifications (rd : Render) (s : Store)
  : Store * list Request :=
  match user rd with
  | None => (s, [])
  | Some u =>
      if Auth.isAdmin (user rd) then
        let allUsers := registeredUsers (storage s) in
        ({| cell := [];
            storage :=
              fold_left (fun ls u' => removeItem (key (Auth.id u')) ls)
                allUsers (storage s) |},
         [{| req_kind := success;
             req_message := "All classifications reset successfully";
             req_title := None |}])
      else
        ({| cell := [];
            storage := removeItem (key (Auth.id u)) (storage s) |},
         [{| req_kind := success;
             req_message := "Your classifications have been reset";
             req_title := None |}])
  end.

(** A value of the [categories] object: a count, or the text JavaScript
    makes when [+ 1] is applied to an inherited member or to a text. *)
Inductive Tally := Count (n : Z) | Text.

(** [categories[k] = (categories[k] || 0) + 1] on an object literal.  An
    own count is raised; an absent key starts at 1 unless the name is
    inherited from [Object.prototype], whose member is truthy and turns
    the sum into a text (and assigning a text to [__proto__] is ignored). *)
Definition tally (categories : gmap string Tally) (c : ClassificationResult)
  : gmap string Tally :=
  let k := category c in
  match categories !! k with
  | Some (Count n) => <[k := Count (n + 1)]> categories
  | Some Text => <[k := Text]> categories
  | None =>
      if bool_decide (k ∈ Js.objectPrototypeNames) then
        if String.eqb k "__proto__" then categories
        else <[k := Text]> categories
      else <[k := Count 1]> categories
  end.

(** The sum of the counts held by a [categories] object. *)
Definition countedTotal (categories : gmap string Tally) : Z :=
  map_fold (fun _ t acc =>
              (match t with Count n => n | Text => 0 end + acc)%Z)
    0%Z categories.

(** How many records of a list carry a category. *)
Definition occurrences (k : string) (l : list ClassificationResult) : nat :=
  length (List.filter (fun c => String.eqb (category c) k) l).

Record Stats := {
  total : nat;
  hazardous : nat;
  categories : gmap string Tally;
  recentActivity : list ClassificationResult
}.

Definition getClassificationStats (rd : Render) (ls : LocalStorage) : Stats :=
  let userClassifications :=
    if Auth.isAdmin (user rd) then getAllClassifications rd ls
    else getUserClassifications rd in
  {| total := length userClassifications;
     hazardous :=
       length (List.filter
                 (fun c => (0 <? length (hazardousMaterials c))%nat)
                 userClassifications);
     categories := fold_left tally userClassifications ∅;
     recentActivity := take 5 userClassifications |}.

End Classification.

(** ** ReportContext: the report store *)

Module Reports.

Import Notifications.

Inductive ReportType := classification | summary | analysis | uploaded.
Inductive Status := completed | processing | failed.
Inductive Format := pdf | pptx | csv.

(** [content: any] is carried untouched by every store function; it is
    kept as an opaque text. *)
Record Report := {
  id : string;
  userId : string;
  title : string;
  type : ReportType;
  content : string;
  createdAt : Z;
  updatedAt : Z;
  size : string;
  status : Status;
  downloadCount : Z;
  isPublic : bool;
  tags : list string;
  fileUrl : option string
}.

(** [Omit<Report, 'id' | 'userId' | 'createdAt' | 'updatedAt' | 'downloadCount'>] *)
Module Data.
Record t := {
  title : string;
  type : ReportType;
  content : string;
  size : string;
  status : Status;
  isPublic : bool;
  tags : list string;
  fileUrl : option string
}.
End Data.

(** [Partial<Report>]: [None] is an absent key. *)
Module Patch.
Record t := {
  id : option string;
  userId : option string;
  title : option string;
  type : option ReportType;
  content : option string;
  createdAt : option Z;
  updatedAt : option Z;
  size : option string;
  status : option Status;
  downloadCount : option Z;
  isPublic : option bool;
  tags : option (list string);
  fileUrl : option (option string)
}.

Definition empty : t :=
  {| id := None; userId := None; title := None; type := None;
     content := None; createdAt := None; updatedAt := None; size := None;
     status := None; downloadCount := None; isPublic := None; tags := None;
     fileUrl := None |}.

(** [{ downloadCount: n }] *)
Definition downloadCount_only (n : Z) : t :=
  {| id := None; userId := None; title := None; type := None;
     content := None; createdAt := None; updatedAt := None; size := None;
     status := None; downloadCount := Some n; isPublic := None; tags := None;
     fileUrl := None |}.
End Patch.

(** The three export generators; [false] stands for a thrown exception or
    a rejected promise. *)
Record Exporters := {
  generatePDFReport : Report -> bool;
  generatePPTXReport : Report -> bool;
  generateCSVReport : Report -> bool
}.

Record Render := {
  user : option Auth.User;
  reports : list Report
}.

(** [cell] is the [reports] state cell, [stored] the ['reports'] item of
    [localStorage]. *)
Record Store := {
  cell : list Report;
  stored : list Report
}.

Definition say (k : Kind) (msg : string) : Request :=
  {| req_kind := k; req_message := msg; req_title := None |}.

(** [report.userId !== user?.id] *)
Definition not_owner (report : Report) (u : option Auth.User) : bool :=
  match u with
  | Some u => negb (String.eqb (userId report) (Auth.id u))
  | None => true
  end.

Definition has_id (target : string) (r : Report) : bool :=
  String.eqb (id r) target.

Definition createReport (rd : Render) (now : Z) (reportData : Data.t)
    (s : Store) : Store * list Request :=
  match user rd with
  | None => (s, [say error "You must be logged in to create reports"])
  | Some u =>
      let newReport :=
        {| title := Data.title reportData;
           type := Data.type reportData;
           content := Data.content reportData;
           size := Data.size reportData;
           status := Data.status reportData;
           isPublic := Data.isPublic reportData;
           tags := Data.tags reportData;
           fileUrl := Data.fileUrl reportData;
           id := "report-" +:+ Js.toString now;
           userId := Auth.id u;
           createdAt := now;
           updatedAt := now;
           downloadCount := 0 |} in
      ({| cell := newReport :: cell s; stored := newReport :: stored s |},
       [say success "Report created successfully!"])
  end.

(** Replace by [updated] every report the callback [r => r.id === target]
    selects: [list.map(r => r.id === target ? updated : r)]. *)
Definition replace_by_id (target : string) (updated : Report)
    (l : list Report) : list Report :=
  List.map (fun r => if has_id target r then updated else r) l.

(** [{ ...report, ...updates, updatedAt: new Date() }] *)
Definition merge (report : Report) (updates : Patch.t) (now : Z) : Report :=
  {| id := default (id report) (Patch.id updates);
     userId := default (userId report) (Patch.userId updates);
     title := default (title report) (Patch.title updates);
     type := default (type report) (Patch.type updates);
     content := default (content report) (Patch.content updates);
     createdAt := default (createdAt report) (Patch.createdAt updates);
     updatedAt := now;
     size := default (size report) (Patch.size updates);
     status := default (status report) (Patch.status updates);
     downloadCount := default (downloadCount report) (Patch.downloadCount updates);
     isPublic := default (isPublic report) (Patch.isPublic updates);
     tags := default (tags report) (Patch.tags updates);
     fileUrl := default (fileUrl report) (Patch.fileUrl updates) |}.

Definition updateReport (rd : Render) (now : Z) (target : string)
    (updates : Patch.t) (s : Store) : Store * list Request :=
  match List.find (has_id target) (reports rd) with
  | None => (s, [say error "Report not found"])
  | Some report =>
      if negb (Auth.isAdmin (user rd)) && not_owner report (user rd)
      then (s, [say error "You can only edit your own reports"])
      else
        let updatedReport := merge report updates now in
        ({| cell := replace_by_id target updatedReport (cell s);
            stored := replace_by_id target updatedReport (stored s) |},
         [say success "Report updated successfully!"])
  end.

Definition deleteReport (rd : Render) (target : string) (s : Store)
  : Store * list Request :=
  match List.find (has_id target) (reports rd) with
  | None => (s, [say error "Report not found"])
  | Some report =>
      if negb (Auth.isAdmin (user rd)) && not_owner report (user rd)
      then (s, [say error "You can only delete your own reports"])
      else
        let keep := fun r => negb (has_id target r) in
        ({| cell := List.filter keep (cell s);
            stored := List.filter keep (stored s) |},
         [say success "Report deleted successfully!"])
  end.

(** [format.toUpperCase()] *)
Definition upper (format : Format) : string :=
  match format with pdf => "PDF" | pptx => "PPTX" | csv => "CSV" end.

Definition generate (ex : Exporters) (format : Format) (report : Report)
  : bool :=
  match format with
  | pdf => generatePDFReport ex report
  | pptx => generatePPTXReport ex report
  | csv => generateCSVReport ex report
  end.

(** [downloadReport]; [now] is the clock when the export has settled,
    [s] the store at that moment. *)
Definition downloadReport (ex : Exporters) (rd : Render) (now : Z)
    (target : string) (format : Format) (s : Store) : Store * list Request :=
  match List.find (has_id target) (reports rd) with
  | None => (s, [say error "Report not found"])
  | Some report =>
      if negb (Auth.isAdmin (user rd)) && not_owner report (user rd)
         && negb (isPublic report)
      then (s, [say error "You do not have permission to download this report"])
      else
        let preparing :=
          say info ("Preparing " +:+ upper format +:+ " download...") in
        if generate ex format report then
          let updates := Patch.downloadCount_only (downloadCount report + 1) in
          let '(s', said) := updateReport rd now target updates s in
          (s', preparing :: said ++
               [say success (upper format +:+ " report downloaded successfully!")])
        else
          (s, [preparing;
               say error ("Failed to download " +:+ upper format +:+ " report")])
  end.

Definition getUserReports (rd : Render) : list Report :=
  match user rd with
  | None => []
  | Some u =>
      List.filter (fun r => String.eqb (userId r) (Auth.id u)) (reports rd)
  end.

Definition getAllReports (rd : Render) : list Report :=
  if negb (Auth.isAdmin (user rd)) then getUserReports rd
  else reports rd.

(** A render whose snapshot is the current value of the state cell. *)
Definition in_sync (rd : Render) (s : Store) : Prop := reports rd = cell s.

(** The render that follows a store change for the same signed-in user. *)
Definition rerender (u : option Auth.User) (s : Store) : Render :=
  {| user := u; reports := cell s |}.

End Reports.

(** ** AuthContext: accounts, tokens and the browser storage *)

Module Account.

(** [localStorage] as the provider uses it: the ['token'] and
    ['registeredUsers'] items, and every other item by key, as stored
    text. *)
Record Browser := {
  token : option string;
  registeredUsers : list Auth.User;
  others : gmap string string
}.

(** The library functions the provider relies on.  [jwtDecode] yields
    [None] where the decoder throws, [decodeMessage] being the message of
    the error thrown; [encodePayload] is [btoa(JSON.stringify(payload))];
    [toISOString] is [new Date(ms).toISOString()]. *)
Record Library := {
  jwtDecode : string -> option Auth.TokenPayload;
  decodeMessage : string -> string;
  encodePayload : Auth.TokenPayload -> string;
  toISOString : Z -> string
}.

(** [toast.success] and [toast.error] calls. *)
Inductive Toast :=
| ToastSuccess (message : string)
| ToastError (message : string).

(** How a call ends: it returns, or it throws an error with a message. *)
Inductive Outcome :=
| Returned
| Thrown (message : string).

(** The fields of [userData] that [signup] reads. *)
Record SignupData := {
  name : string;
  email : string;
  userType : Auth.UserType
}.

Definition checkUserExists (mail : string) (b : Browser) : bool :=
  List.existsb (fun u => String.eqb (Auth.email u) mail) (registeredUsers b).

Definition setToken (t : option string) (b : Browser) : Browser :=
  {| token := t; registeredUsers := registeredUsers b; others := others b |}.

(** [`header.${encoded}.signature`] around a payload issued at [now]
    for 24 hours. *)
Definition issue (lib : Library) (now : Z) (u : Auth.User) : string :=
  let tokenPayload :=
    {| Auth.payload_user := u;
       Auth.iat := (now / 1000)%Z;
       Auth.exp := (now / 1000 + 24 * 60 * 60)%Z |} in
  "header." +:+ encodePayload lib tokenPayload +:+ ".signature".

Definition login (lib : Library) (t : string) (st : Auth.AuthState)
    (b : Browser) : Auth.AuthState * Browser * list Toast * Outcome :=
  let b := setToken (Some t) b in
  match jwtDecode lib t with
  | Some decoded =>
      ({| Auth.user := Some (Auth.payload_user decoded);
          Auth.isLoading := Auth.isLoading st |},
       b,
       [ToastSuccess ("Welcome back, "
                      +:+ Auth.name (Auth.payload_user decoded) +:+ "!")],
       Returned)
  | None =>
      (st, b, [ToastError "Invalid authentication token"],
       Thrown (decodeMessage lib t))
  end.

Definition logout (st : Auth.AuthState) (b : Browser)
  : Auth.AuthState * Browser * list Toast :=
  ({| Auth.user := None; Auth.isLoading := Auth.isLoading st |},
   setToken None b,
   [ToastSuccess "Logged out successfully"]).

(** [signup]; [now] is the clock after the simulated delay. *)
Definition signup (lib : Library) (now : Z) (userData : SignupData)
    (st : Auth.AuthState) (b : Browser)
  : Auth.AuthState * Browser * list Toast * Outcome :=
  if checkUserExists (email userData) b then
    ({| Auth.user := Auth.user st; Auth.isLoading := false |},
     b,
     [ToastError "User already exists. Please login instead."],
     Thrown "User already exists. Please login instead.")
  else
    let newUser :=
      Auth.newUser now (toISOString lib now) (Js.trim (name userData))
        (Js.lowerCase (email userData)) (userType userData) in
    let b :=
      {| token := token b;
         registeredUsers := registeredUsers b ++ [newUser];
         others := others b |} in
    match login lib (issue lib now newUser) st b with
    | (st, b, said, Returned) =>
        ({| Auth.user := Auth.user st; Auth.isLoading := false |},
         b,
         said ++ [ToastSuccess "Account created successfully! Welcome to EcoVision!"],
         Returned)
    | (st, b, said, Thrown message) =>
        ({| Auth.user := Auth.user st; Auth.isLoading := false |},
         b,
         said ++ [ToastError (if String.eqb message ""
                              then "Signup failed. Please try again."
                              else message)],
         Thrown message)
    end.

(** The identity [resetUserData] writes back: the same user with the
    statistics cleared. *)
Definition cleared (u : Auth.User) : Auth.User :=
  {| Auth.id := Auth.id u;
     Auth.name := Auth.name u;
     Auth.email := Auth.email u;
     Auth.role := Auth.role u;
     Auth.userType := Auth.userType u;
     Auth.achievements := [];
     Auth.classificationsCount := 0;
     Auth.avatar := Auth.avatar u;
     Auth.googleId := Auth.googleId u;
     Auth.emailVerified := Auth.emailVerified u;
     Auth.createdAt := Auth.createdAt u;
     Auth.lastLogin := Auth.lastLogin u;
     Auth.quizScore := Some 0%Z;
     Auth.totalClassifications := 0;
     Auth.certificateEligible := false;
     Auth.bio := Auth.bio u;
     Auth.location := Auth.location u;
     Auth.website := Auth.website u |}.

(** The four per-user keys [resetUserData] removes. *)
Definition userKeys (userId : string) : list string :=
  ["classifications_" +:+ userId; "reports_" +:+ userId;
   "quizScores_" +:+ userId; "notifications_" +:+ userId].

Definition resetUserData (lib : Library) (now : Z) (st : Auth.AuthState)
    (b : Browser) : Auth.AuthState * Browser * list Toast :=
  match Auth.user st with
  | None => (st, b, [])
  | Some u =>
      let kept :=
        fold_left (fun m k => delete k m) (userKeys (Auth.id u)) (others b) in
      let updatedUser := cleared u in
      let updatedUsers :=
        List.map (fun x => if String.eqb (Auth.id x) (Auth.id u)
                           then updatedUser else x) (registeredUsers b) in
      ({| Auth.user := Some updatedUser; Auth.isLoading := Auth.isLoading st |},
       {| token := Some (issue lib now updatedUser);
          registeredUsers := updatedUsers;
          others := kept |},
       [ToastSuccess "User data has been reset successfully!"])
  end.

(** The provider remounting on a page reload: both state cells start
    afresh and [initializeAuth] reads the stored token. *)
Definition reload (lib : Library) (now : Z) (b : Browser)
  : Auth.AuthState * Browser :=
  let '(st, t, _) := Auth.initializeAuth (jwtDecode lib) now Auth.mount (token b) in
  (st, setToken t b).

End Account.

(** ** The Reports page: the create and edit form *)

Module ReportsPage.

Import Notifications.

(** The form's [newReportData] state; [tags] is the comma-separated text
    field. *)
Record NewReportData := {
  title : string;
  type : Reports.ReportType;
  content : string;
  tags : string;
  isPublic : bool
}.

Record Form := {
  showCreateModal : bool;
  editingReport : option Reports.Report;
  newReportData : NewReportData
}.

Definition blank : NewReportData :=
  {| title := ""; type := Reports.classification; content := ""; tags := "";
     isPublic := false |}.

(** [text.split(',').map(tag => tag.trim()).filter(Boolean)] *)
Definition parseTags (text : string) : list string :=
  List.filter (fun tag => negb (String.eqb tag ""))
    (List.map Js.trim (Js.split "," text)).

(** [handleCreateReport].  [describe] stands for the wrapping
    [{ description: text }] of the content field. *)
Definition handleCreateReport (describe : string -> string)
    (rd : Reports.Render) (now : Z) (form : Form) (s : Reports.Store)
  : Form * Reports.Store * list Request :=
  let data := newReportData form in
  if String.eqb (Js.trim (title data)) "" then
    (form, s, [Reports.say error "Please enter a report title"])
  else
    let '(s, said) :=
      match editingReport form with
      | Some editing =>
          Reports.updateReport rd now (Reports.id editing)
            {| Reports.Patch.id := None;
               Reports.Patch.userId := None;
               Reports.Patch.title := Some (title data);
               Reports.Patch.type := Some (type data);
               Reports.Patch.content := Some (describe (content data));
               Reports.Patch.createdAt := None;
               Reports.Patch.updatedAt := None;
               Reports.Patch.size := Some "1.2 MB";
               Reports.Patch.status := Some Reports.completed;
               Reports.Patch.downloadCount := None;
               Reports.Patch.isPublic := Some (isPublic data);
               Reports.Patch.tags := Some (parseTags (tags data));
               Reports.Patch.fileUrl := None |} s
      | None =>
          Reports.createReport rd now
            {| Reports.Data.title := title data;
               Reports.Data.type := type data;
               Reports.Data.content := describe (content data);
               Reports.Data.size := "1.2 MB";
               Reports.Data.status := Reports.completed;
               Reports.Data.isPublic := isPublic data;
               Reports.Data.tags := parseTags (tags data);
               Reports.Data.fileUrl := None |} s
      end in
    ({| showCreateModal := false; editingReport := None;
        newReportData := blank |}, s, said).

End ReportsPage.

(** ** Concrete identities, drafts and reports used in the examples *)

Module Sample.

Definition alice : Auth.User :=
  Auth.newUser 1714554000000 "2024-05-01T09:00:00.000Z" "Alice"
    "alice@example.org" Auth.General.
Definition bob : Auth.User :=
  Auth.newUser 1714554060000 "2024-05-01T09:01:00.000Z" "Bob"
    "bob@example.org" Auth.General.
Definition root : Auth.User :=
  Auth.newUser 1714554120000 "2024-05-01T09:02:00.000Z" "Root"
    "root@example.org" Auth.AdminType.

(** The first mock outcome of the classifier page, with the score and
    label that page supplies. *)
Definition battery : Classification.Draft.t :=
  {| Classification.Draft.itemName := "Smartphone Battery";
     Classification.Draft.category := "Mobile Device Battery";
     Classification.Draft.hazardousMaterials := ["Lithium"; "Cobalt"];
     Classification.Draft.safetyLevel := Classification.high;
     Classification.Draft.recommendations :=
       ["Do not puncture or disassemble"; "Keep away from heat sources"];
     Classification.Draft.confidence := (189 # 2)%Q;
     Classification.Draft.reusabilityScore := 25;
     Classification.Draft.reusabilityLabel := Classification.NonReusable;
     Classification.Draft.imageUrl := "";
     Classification.Draft.location := None |}.

(** Another draft of the same category and as many hazardous materials,
    differing in name, materials, confidence and supplied score. *)
Definition power_bank : Classification.Draft.t :=
  {| Classification.Draft.itemName := "Power Bank";
     Classification.Draft.category := "Mobile Device Battery";
     Classification.Draft.hazardousMaterials :=
       ["Mercury (trace amounts)"; "Lead"];
     Classification.Draft.safetyLevel := Classification.medium;
     Classification.Draft.recommendations :=
       ["Take to electronics recycling facility"];
     Classification.Draft.confidence := (436 # 5)%Q;
     Classification.Draft.reusabilityScore := 65;
     Classification.Draft.reusabilityLabel := Classification.Moderate;
     Classification.Draft.imageUrl := "";
     Classification.Draft.location := None |}.

Definition empty_storage : Classification.LocalStorage :=
  {| Classification.registeredUsers := [alice; bob; root];
     Classification.items := ∅ |}.

Definition fresh : Classification.Store :=
  {| Classification.cell := []; Classification.storage := empty_storage |}.

Definition as_user (u : Auth.User) : Classification.Render :=
  {| Classification.user := Some u; Classification.classifications := [] |}.

Definition summary_data (title : string) : Reports.Data.t :=
  {| Reports.Data.title := title;
     Reports.Data.type := Reports.summary;
     Reports.Data.content := "Auto-generated report";
     Reports.Data.size := "2.4 MB";
     Reports.Data.status := Reports.completed;
     Reports.Data.isPublic := false;
     Reports.Data.tags := ["auto-generated"];
     Reports.Data.fileUrl := None |}.

Definition report_of (owner : Auth.User) (created : Z) (public : bool)
  : Reports.Report :=
  {| Reports.id := "report-" +:+ Js.toString created;
     Reports.userId := Auth.id owner;
     Reports.title := "Quarterly summary";
     Reports.type := Reports.summary;
     Reports.content := "Auto-generated report";
     Reports.createdAt := created;
     Reports.updatedAt := created;
     Reports.size := "2.4 MB";
     Reports.status := Reports.completed;
     Reports.downloadCount := 3;
     Reports.isPublic := public;
     Reports.tags := ["auto-generated"];
     Reports.fileUrl := None |}.

Definition shelf : list Reports.Report :=
  [report_of alice 1714560000000 false; report_of bob 1714560001000 true].

Definition shelf_store : Reports.Store :=
  {| Reports.cell := shelf; Reports.stored := shelf |}.

Definition viewing (u : option Auth.User) : Reports.Render :=
  {| Reports.user := u; Reports.reports := shelf |}.

Definition exporters (ok : bool) : Reports.Exporters :=
  {| Reports.generatePDFReport := fun _ => ok;
     Reports.generatePPTXReport := fun _ => ok;
     Reports.generateCSVReport := fun _ => ok |}.

Definition saved (at_ms : Z) : Notifications.Call :=
  {| Notifications.call_time := at_ms;
     Notifications.call_kind := Notifications.success;
     Notifications.call_message := "Saved";
     Notifications.call_title := None |}.

Definition progress (at_ms : Z) (text : string) : Notifications.Call :=
  {| Notifications.call_time := at_ms;
     Notifications.call_kind := Notifications.info;
     Notifications.call_message := text;
     Notifications.call_title := None |}.

(** "Saved", ten progress messages 100 ms apart, all within 1.1 seconds. *)
Definition burst : list Notifications.Op :=
  List.map Notifications.Notify
    [saved 1714570000000;
     progress 1714570000100 "Step 1"; progress 1714570000200 "Step 2";
     progress 1714570000300 "Step 3"; progress 1714570000400 "Step 4";
     progress 1714570000500 "Step 5"; progress 1714570000600 "Step 6";
     progress 1714570000700 "Step 7"; progress 1714570000800 "Step 8";
     progress 1714570000900 "Step 9"; progress 1714570001000 "Step 10"].

(** A report form as typed by the user. *)
Definition typed (title tags : string) : ReportsPage.Form :=
  {| ReportsPage.showCreateModal := true;
     ReportsPage.editingReport := None;
     ReportsPage.newReportData :=
       {| ReportsPage.title := title;
          ReportsPage.type := Reports.summary;
          ReportsPage.content := "Collected in April";
          ReportsPage.tags := tags;
          ReportsPage.isPublic := false |} |}.

(** A decoder that accepts one token, issued for Alice with [exp] one
    day after 1714554000 s. *)
Definition decoder (token : string) : option Auth.TokenPayload :=
  if String.eqb token "header.alice.signature"
  then Some {| Auth.payload_user := alice; Auth.iat := 1714554000;
               Auth.exp := 1714640400 |}
  else None.

(** A library whose decoder reads back the one token it issues. *)
Definition library : Account.Library :=
  {| Account.jwtDecode := decoder;
     Account.decodeMessage := fun _ => "Invalid token specified";
     Account.encodePayload := fun _ => "alice";
     Account.toISOString := fun _ => "2024-05-01T09:00:00.000Z" |}.

Definition empty_browser : Account.Browser :=
  {| Account.token := None; Account.registeredUsers := [bob];
     Account.others :=
       {[ "reports" := "[...]";
          "classifications_user-1714554000000" := "[...]";
          "classifications_user-1714554060000" := "[...]" ]} |}.

Definition alice_form : Account.SignupData :=
  {| Account.name := "  Alice ";
     Account.email := "Alice@Example.org";
     Account.userType := Auth.General |}.

End Sample.

(** * Properties *)

(** ** Who is an admin *)

(** [isAdmin] looks at [role] and at [userType].  [signup] derives the
    role from the requested user type, so for the identities it creates
    being an admin is the same as having the role admin. *)
Lemma signup_admin_is_role now nowIso name email requested :
  Auth.isAdmin (Some (Auth.newUser now nowIso name email requested))
  = Auth.is_admin_role (Auth.role (Auth.newUser now nowIso name email requested)).
Proof. now destruct requested. Qed.

(** ** The derived score *)

Section Score.

Import Classification.

Local Open Scope Z_scope.

Lemma clamp_cases (v : Z) :
  (if v <? 0 then 0 else if 100 <? v then 100 else v) = Z.max 0 (Z.min 100 v).
Proof.
  destruct (Z.ltb_spec v 0); [lia|].
  destruct (Z.ltb_spec 100 v); lia.
Qed.

Lemma score_closed_form (itemName category : string) (haz : list string) :
  calculateReusabilityScore itemName category haz
  = spec_score Js.includes category (Z.of_nat (length haz)).
Proof.
  unfold calculateReusabilityScore, spec_score.
  rewrite clamp_cases.
  destruct (Js.includes category "Battery");
    destruct (Js.includes category "Cable" || Js.includes category "Accessory")%bool;
    destruct (Js.includes category "Phone" || Js.includes category "Computer")%bool;
    f_equal; f_equal; lia.
Qed.

Lemma score_range (itemName category : string) (haz : list string) :
  0 <= calculateReusabilityScore itemName category haz <= 100.
Proof. unfold calculateReusabilityScore. cbv zeta. lia. Qed.

Lemma label_high (score : Z) :
  getReusabilityLabel score = HighlyReusable <-> 70 <= score.
Proof.
  unfold getReusabilityLabel.
  destruct (Z.geb_spec score 70); [intuition lia|].
  destruct (Z.geb_spec score 40); split; (discriminate || lia).
Qed.

Lemma label_moderate (score : Z) :
  getReusabilityLabel score = Moderate <-> 40 <= score < 70.
Proof.
  unfold getReusabilityLabel.
  destruct (Z.geb_spec score 70); [split; (discriminate || lia)|].
  destruct (Z.geb_spec score 40); split; (discriminate || lia || reflexivity).
Qed.

Lemma label_low (score : Z) :
  getReusabilityLabel score = NonReusable <-> score < 40.
Proof.
  unfold getReusabilityLabel.
  destruct (Z.geb_spec score 70); [split; (discriminate || lia)|].
  destruct (Z.geb_spec score 40); split; (discriminate || lia || reflexivity).
Qed.

(** C1 (as amended).  For every item name, category and list of hazardous
    materials the computed score is the written formula with
    case-sensitive substring containment: 70, minus 15 per hazardous
    material, minus 30 if the category contains "Battery", plus 20 if it
    contains "Cable" or "Accessory", plus 10 if it contains "Phone" or
    "Computer", all cumulative, clamped to [0,100].  The label is
    HighlyReusable iff the score is at least 70, Moderate iff it is in
    [40,70), NonReusable iff it is below 40.  Category "Battery" with two
    hazardous materials scores 10 and is NonReusable. *)
Theorem score_formula_case_sensitive
    (itemName category : string) (hazardousMaterials : list string) :
  calculateReusabilityScore itemName category hazardousMaterials
    = spec_score Js.includes category (Z.of_nat (length hazardousMaterials))
  /\ 0 <= calculateReusabilityScore itemName category hazardousMaterials <= 100
  /\ (forall score,
        (getReusabilityLabel score = HighlyReusable <-> 70 <= score)
        /\ (getReusabilityLabel score = Moderate <-> 40 <= score < 70)
        /\ (getReusabilityLabel score = NonReusable <-> score < 40))
  /\ calculateReusabilityScore itemName "Battery" ["Lithium"; "Cobalt"]%string = 10
  /\ getReusabilityLabel
       (calculateReusabilityScore itemName "Battery" ["Lithium"; "Cobalt"]%string)
     = NonReusable.
Proof.
  split; [apply score_closed_form|].
  split; [apply score_range|].
  split; [intro score; auto using label_high, label_moderate, label_low|].
  split; reflexivity.
Qed.

(** C1 (as stated) fails: with case-insensitive containment the written
    formula takes 30 off the category "Lithium battery pack", the code
    matches "Battery" case-sensitively and does not: 70 and
    HighlyReusable against 40 and Moderate. *)
Lemma score_formula_case_insensitive_fails :
  calculateReusabilityScore "Spare cell" "Lithium battery pack" [] = 70
  /\ spec_score Js.includes_ci "Lithium battery pack" (Z.of_nat (@length string [])) = 40
  /\ getReusabilityLabel
       (calculateReusabilityScore "Spare cell" "Lithium battery pack" [])
     = HighlyReusable
  /\ calculateReusabilityScore "Spare cell" "Lithium battery pack" []
     <> spec_score Js.includes_ci "Lithium battery pack" (Z.of_nat (@length string [])).
Proof. repeat split; vm_compute; congruence. Qed.

End Score.

(** ** The classification store *)

Section ClassificationStore.

Import Classification.

Lemma score_depends_on_count (n1 n2 c : string) (h1 h2 : list string) :
  length h1 = length h2 ->
  calculateReusabilityScore n1 c h1 = calculateReusabilityScore n2 c h2.
Proof. intros E. unfold calculateReusabilityScore. now rewrite E. Qed.

(** The record [addClassification] builds for a signed-in user. *)
Lemma addClassification_signed_in rd now result s u :
  user rd = Some u ->
  exists r,
    fst (addClassification rd now result s)
      = {| cell := r :: classifications rd;
           storage := setItem (key (Auth.id u)) (r :: classifications rd)
                        (storage s) |}
    /\ userId r = Auth.id u
    /\ timestamp r = now
    /\ category r = Draft.category result
    /\ hazardousMaterials r = Draft.hazardousMaterials result
    /\ reusabilityScore r
       = calculateReusabilityScore (Draft.itemName result)
           (Draft.category result) (Draft.hazardousMaterials result)
    /\ reusabilityLabel r = getReusabilityLabel (reusabilityScore r).
Proof.
  intros Hu. unfold addClassification. rewrite Hu. cbn.
  eexists. split; [reflexivity|]. cbn. repeat split.
Qed.

(** C8.  Two drafts with the same category and the same number of
    hazardous materials get the same score, whatever their item names,
    confidences and material strings: both from the scoring function and
    in the records the store creates from them. *)
Theorem score_is_function_of_category_and_count
    (d1 d2 : Draft.t) (rd1 rd2 : Render) (t1 t2 : Z) (s1 s2 : Store)
    (u1 u2 : Auth.User) :
  Draft.category d1 = Draft.category d2 ->
  length (Draft.hazardousMaterials d1) = length (Draft.hazardousMaterials d2) ->
  user rd1 = Some u1 -> user rd2 = Some u2 ->
  calculateReusabilityScore (Draft.itemName d1) (Draft.category d1)
      (Draft.hazardousMaterials d1)
    = calculateReusabilityScore (Draft.itemName d2) (Draft.category d2)
        (Draft.hazardousMaterials d2)
  /\ exists r1 r2,
       cell (fst (addClassification rd1 t1 d1 s1)) = r1 :: classifications rd1
       /\ cell (fst (addClassification rd2 t2 d2 s2)) = r2 :: classifications rd2
       /\ reusabilityScore r1 = reusabilityScore r2.
Proof.
  intros Hc Hn H1 H2.
  assert (E : calculateReusabilityScore (Draft.itemName d1) (Draft.category d1)
                (Draft.hazardousMaterials d1)
              = calculateReusabilityScore (Draft.itemName d2) (Draft.category d2)
                  (Draft.hazardousMaterials d2)).
  { rewrite Hc. now apply score_depends_on_count. }
  split; [exact E|].
  destruct (addClassification_signed_in rd1 t1 d1 s1 u1 H1)
    as (r1 & E1 & _ & _ & _ & _ & S1 & _).
  destruct (addClassification_signed_in rd2 t2 d2 s2 u2 H2)
    as (r2 & E2 & _ & _ & _ & _ & S2 & _).
  exists r1, r2. rewrite E1, E2. cbn. repeat split. congruence.
Qed.

Lemma score_is_function_of_category_and_count_witness :
  Classification.calculateReusabilityScore "Smartphone Battery"
      "Mobile Device Battery" ["Lithium"; "Cobalt"]
    = Classification.calculateReusabilityScore "Power Bank"
        "Mobile Device Battery" ["Mercury (trace amounts)"; "Lead"]
  /\ exists r1 r2,
       cell (fst (addClassification (Sample.as_user Sample.alice)
                    1714560000000 Sample.battery Sample.fresh)) = [r1]
       /\ cell (fst (addClassification (Sample.as_user Sample.bob)
                       1714560005000 Sample.power_bank Sample.fresh)) = [r2]
       /\ reusabilityScore r1 = reusabilityScore r2.
Proof.
  apply (score_is_function_of_category_and_count Sample.battery Sample.power_bank
           (Sample.as_user Sample.alice) (Sample.as_user Sample.bob)
           1714560000000 1714560005000 Sample.fresh Sample.fresh
           Sample.alice Sample.bob); reflexivity.
Defined.

(** C2.  On every create by a signed-in user the record committed to the
    state cell and to the user's storage key carries the score computed
    by [calculateReusabilityScore] from the draft's category and hazardous
    materials and the label computed from that score; the score and label
    the caller put in the draft have no influence on the outcome. *)
Theorem create_discards_supplied_score
    (rd : Render) (now : Z) (result : Draft.t) (s : Store) (u : Auth.User) :
  user rd = Some u ->
  (exists r,
      cell (fst (addClassification rd now result s)) = r :: classifications rd
      /\ getItem (key (Auth.id u))
           (storage (fst (addClassification rd now result s)))
         = r :: classifications rd
      /\ reusabilityScore r
         = calculateReusabilityScore (Draft.itemName result)
             (Draft.category result) (Draft.hazardousMaterials result)
      /\ reusabilityLabel r = getReusabilityLabel (reusabilityScore r))
  /\ forall score label,
       addClassification rd now (Draft.supplying result score label) s
       = addClassification rd now result s.
Proof.
  intros Hu. split.
  - destruct (addClassification_signed_in rd now result s u Hu)
      as (r & E & _ & _ & _ & _ & Hs & Hl).
    exists r. rewrite E. cbn. unfold getItem, setItem. cbn.
    rewrite lookup_insert_eq. auto.
  - intros score label. unfold addClassification. rewrite Hu. reflexivity.
Qed.

Lemma create_discards_supplied_score_witness :
  (exists r,
      cell (fst (addClassification (Sample.as_user Sample.alice) 1714560000000
                   Sample.battery Sample.fresh)) = [r]
      /\ getItem (key (Auth.id Sample.alice))
           (storage (fst (addClassification (Sample.as_user Sample.alice)
                            1714560000000 Sample.battery Sample.fresh)))
         = [r]
      /\ reusabilityScore r
         = calculateReusabilityScore "Smartphone Battery"
             "Mobile Device Battery" ["Lithium"; "Cobalt"]
      /\ reusabilityLabel r = getReusabilityLabel (reusabilityScore r))
  /\ forall score label,
       addClassification (Sample.as_user Sample.alice) 1714560000000
         (Draft.supplying Sample.battery score label) Sample.fresh
       = addClassification (Sample.as_user Sample.alice) 1714560000000
           Sample.battery Sample.fresh.
Proof.
  apply (create_discards_supplied_score (Sample.as_user Sample.alice)
           1714560000000 Sample.battery Sample.fresh Sample.alice).
  reflexivity.
Defined.

End ClassificationStore.

(** ** Who sees which classification *)

Section Visibility.

Import Classification.

Lemma insert_newest_perm x l : Permutation (insert_newest x l) (x :: l).
Proof.
  induction l as [|y l IH]; cbn; [reflexivity|].
  destruct (timestamp y >? timestamp x)%Z; [|reflexivity].
  rewrite IH. apply perm_swap.
Qed.

Lemma sort_newest_perm l : Permutation (sort_newest l) l.
Proof.
  induction l as [|x l IH]; cbn; [reflexivity|].
  rewrite insert_newest_perm. now constructor.
Qed.

Lemma gather_flat_map {A B} (f : A -> list B) (xs : list A) (acc : list B) :
  fold_left (fun acc x => acc ++ f x) xs acc = acc ++ flat_map f xs.
Proof.
  revert acc. induction xs as [|x xs IH]; intros acc; cbn.
  - now rewrite app_nil_r.
  - rewrite IH. now rewrite <- app_assoc.
Qed.

Lemma own_list_spec rd c :
  In c (getUserClassifications rd)
  <-> exists u, user rd = Some u /\ In c (classifications rd)
                /\ userId c = Auth.id u.
Proof.
  unfold getUserClassifications. destruct (user rd) as [u|].
  - rewrite filter_In. split.
    + intros [Hin He]. exists u. apply String.eqb_eq in He. auto.
    + intros (u' & [= <-] & Hin & He). split; [assumption|].
      now apply String.eqb_eq.
  - split; [intros []|intros (u & [=] & _)].
Qed.

Lemma member_list_is_own_list rd ls :
  Auth.isAdmin (user rd) = false ->
  getAllClassifications rd ls = getUserClassifications rd.
Proof. intros H. unfold getAllClassifications. now rewrite H. Qed.

Lemma admin_list_perm rd ls :
  Auth.isAdmin (user rd) = true ->
  Permutation (getAllClassifications rd ls)
    (flat_map (fun u => getItem (key (Auth.id u)) ls) (registeredUsers ls)).
Proof.
  intros H. unfold getAllClassifications. rewrite H. cbn.
  rewrite sort_newest_perm. now rewrite gather_flat_map.
Qed.

(** C4.  A record [r] created by a signed-in actor [a] is in [a]'s own
    list at the next render and after a reload from storage, and in [a]'s
    role-dependent list as well ([a] being a member, or an admin found in
    the registered identities).  No
    non-admin actor with another id (nor a signed-out visitor) gets [r]
    from either accessor, whatever that actor's render and storage hold.
    For an admin the list is, up to the newest-first order, the
    concatenation of the stored records of every registered identity, so
    it holds every record of every tenant. *)
Theorem listing_is_scoped_by_owner
    (rd : Render) (now : Z) (result : Draft.t) (s : Store) (a : Auth.User) :
  user rd = Some a ->
  exists r,
    cell (fst (addClassification rd now result s)) = r :: classifications rd
    /\ userId r = Auth.id a
    /\ In r (getUserClassifications
               (rerender (Some a) (fst (addClassification rd now result s))))
    /\ In r (getUserClassifications
               {| user := Some a;
                  classifications :=
                    loadClassifications (Some a)
                      (storage (fst (addClassification rd now result s))) |})
    /\ (Auth.isAdmin (Some a) = false \/ In a (registeredUsers (storage s)) ->
        In r (getAllClassifications
                (rerender (Some a) (fst (addClassification rd now result s)))
                (storage (fst (addClassification rd now result s)))))
    /\ (forall rd_b ls,
          Auth.isAdmin (user rd_b) = false ->
          (forall b, user rd_b = Some b -> Auth.id b <> Auth.id a) ->
          ~ In r (getUserClassifications rd_b)
          /\ ~ In r (getAllClassifications rd_b ls))
    /\ (forall rd_adm ls,
          Auth.isAdmin (user rd_adm) = true ->
          Permutation (getAllClassifications rd_adm ls)
            (flat_map (fun u => getItem (key (Auth.id u)) ls)
               (registeredUsers ls))
          /\ forall u c,
               In u (registeredUsers ls) ->
               In c (getItem (key (Auth.id u)) ls) ->
               In c (getAllClassifications rd_adm ls)).
Proof.
  intros Hu.
  destruct (addClassification_signed_in rd now result s a Hu)
    as (r & E & Hr & _).
  exists r. rewrite E. cbn [fst cell storage].
  assert (Hown : In r (getUserClassifications
                         (rerender (Some a)
                            {| cell := r :: classifications rd;
                               storage := setItem (key (Auth.id a))
                                 (r :: classifications rd) (storage s) |}))).
  { apply own_list_spec. exists a. cbn. auto. }
  split; [reflexivity|]. split; [assumption|]. split; [assumption|].
  split; [|split; [|split]].
  - apply own_list_spec. exists a. cbn. unfold getItem, setItem. cbn.
    rewrite lookup_insert_eq. cbn. auto.
  - intros Hcase.
    destruct (Auth.isAdmin (Some a)) eqn:Hadm.
    + destruct Hcase as [|Hreg]; [discriminate|].
      eapply Permutation_in.
      * symmetry. apply admin_list_perm. exact Hadm.
      * apply in_flat_map. exists a. split; [exact Hreg|].
        unfold getItem, setItem. cbn. rewrite lookup_insert_eq. now left.
    + rewrite member_list_is_own_list by exact Hadm. exact Hown.
  - intros rd_b ls Hb Hne.
    rewrite member_list_is_own_list by exact Hb.
    assert (Hno : ~ In r (getUserClassifications rd_b)).
    { intros (b & Hb' & _ & Hid)%own_list_spec.
      apply (Hne b Hb'). congruence. }
    auto.
  - intros rd_adm ls Hadm. split; [now apply admin_list_perm|].
    intros u c Hin Hc.
    eapply Permutation_in.
    + symmetry. now apply admin_list_perm.
    + apply in_flat_map. eauto.
Qed.

Lemma listing_is_scoped_by_owner_witness :
  exists r,
    cell (fst (addClassification (Sample.as_user Sample.alice) 1714560000000
                 Sample.battery Sample.fresh)) = [r]
    /\ userId r = Auth.id Sample.alice
    /\ In r (getUserClassifications
               (rerender (Some Sample.alice)
                  (fst (addClassification (Sample.as_user Sample.alice)
                          1714560000000 Sample.battery Sample.fresh))))
    /\ In r (getUserClassifications
               {| user := Some Sample.alice;
                  classifications :=
                    loadClassifications (Some Sample.alice)
                      (storage (fst (addClassification
                                       (Sample.as_user Sample.alice)
                                       1714560000000 Sample.battery
                                       Sample.fresh))) |})
    /\ (Auth.isAdmin (Some Sample.alice) = false
        \/ In Sample.alice (registeredUsers (storage Sample.fresh)) ->
        In r (getAllClassifications
                (rerender (Some Sample.alice)
                   (fst (addClassification (Sample.as_user Sample.alice)
                           1714560000000 Sample.battery Sample.fresh)))
                (storage (fst (addClassification (Sample.as_user Sample.alice)
                                 1714560000000 Sample.battery Sample.fresh)))))
    /\ (forall rd_b ls,
          Auth.isAdmin (user rd_b) = false ->
          (forall b, user rd_b = Some b -> Auth.id b <> Auth.id Sample.alice) ->
          ~ In r (getUserClassifications rd_b)
          /\ ~ In r (getAllClassifications rd_b ls))
    /\ (forall rd_adm ls,
          Auth.isAdmin (user rd_adm) = true ->
          Permutation (getAllClassifications rd_adm ls)
            (flat_map (fun u => getItem (key (Auth.id u)) ls)
               (registeredUsers ls))
          /\ forall u c,
               In u (registeredUsers ls) ->
               In c (getItem (key (Auth.id u)) ls) ->
               In c (getAllClassifications rd_adm ls)).
Proof.
  apply (listing_is_scoped_by_owner (Sample.as_user Sample.alice)
           1714560000000 Sample.battery Sample.fresh Sample.alice).
  reflexivity.
Defined.

End Visibility.

(** ** The report store *)

Section ReportStore.

Import Notifications Reports.

Lemma find_has_id target l r :
  List.find (has_id target) l = Some r -> In r l /\ id r = target.
Proof.
  intros H. apply find_some in H as [Hin Hid].
  split; [assumption|]. now apply String.eqb_eq.
Qed.

(** With pairwise distinct ids, an id designates the report carrying it. *)
Lemma find_by_own_id l r :
  List.NoDup (List.map id l) -> In r l ->
  List.find (has_id (id r)) l = Some r.
Proof.
  induction l as [|x l IH]; intros Hnd Hin; [destruct Hin|].
  cbn in *. inversion Hnd as [|? ? Hx Hl]; subst.
  unfold has_id at 1. destruct (String.eqb_spec (id x) (id r)) as [E|E].
  - destruct Hin as [->|Hin]; [reflexivity|].
    exfalso. apply Hx. rewrite E. now apply in_map.
  - destruct Hin as [->|Hin]; [congruence|]. now apply IH.
Qed.

Lemma update_denied rd now target updates s report :
  Auth.isAdmin (user rd) = false ->
  List.find (has_id target) (reports rd) = Some report ->
  not_owner report (user rd) = true ->
  updateReport rd now target updates s
  = (s, [say error "You can only edit your own reports"]).
Proof.
  intros Hadm Hfind Hown. unfold updateReport.
  now rewrite Hfind, Hadm, Hown.
Qed.

Lemma delete_denied rd target s report :
  Auth.isAdmin (user rd) = false ->
  List.find (has_id target) (reports rd) = Some report ->
  not_owner report (user rd) = true ->
  deleteReport rd target s
  = (s, [say error "You can only delete your own reports"]).
Proof.
  intros Hadm Hfind Hown. unfold deleteReport.
  now rewrite Hfind, Hadm, Hown.
Qed.

(** The same for any report of a snapshot whose ids are pairwise
    distinct, addressed by its own id. *)
Lemma foreign_report_by_own_id rd now updates s report :
  Auth.isAdmin (user rd) = false ->
  List.NoDup (List.map id (reports rd)) ->
  In report (reports rd) ->
  not_owner report (user rd) = true ->
  updateReport rd now (id report) updates s
    = (s, [say error "You can only edit your own reports"])
  /\ deleteReport rd (id report) s
     = (s, [say error "You can only delete your own reports"]).
Proof.
  intros Hadm Hnd Hin Hown.
  pose proof (find_by_own_id _ _ Hnd Hin) as Hfind.
  split; [eapply update_denied|eapply delete_denied]; eassumption.
Qed.

(** C3.  When the actor is not an admin and the report an id designates
    is owned by another identity (or nobody is signed in), [updateReport]
    and [deleteReport] on that id answer with the permission error and
    leave the whole report store, state cell and persisted list alike,
    exactly as it was. *)
Theorem foreign_report_is_protected
    (rd : Render) (now : Z) (target : string) (updates : Patch.t)
    (s : Store) (report : Report) :
  Auth.isAdmin (user rd) = false ->
  List.find (has_id target) (reports rd) = Some report ->
  not_owner report (user rd) = true ->
  updateReport rd now target updates s
    = (s, [say error "You can only edit your own reports"])
  /\ deleteReport rd target s
     = (s, [say error "You can only delete your own reports"]).
Proof.
  intros Hadm Hfind Hown.
  split; [eapply update_denied|eapply delete_denied]; eassumption.
Qed.

Lemma foreign_report_is_protected_witness :
  updateReport (Sample.viewing (Some Sample.bob)) 1714570000000
      "report-1714560000000"
      {| Patch.id := None; Patch.userId := Some (Auth.id Sample.bob);
         Patch.title := Some "Taken over"; Patch.type := None;
         Patch.content := None; Patch.createdAt := None;
         Patch.updatedAt := None; Patch.size := None; Patch.status := None;
         Patch.downloadCount := None; Patch.isPublic := Some true;
         Patch.tags := None; Patch.fileUrl := None |}
      Sample.shelf_store
    = (Sample.shelf_store, [say error "You can only edit your own reports"])
  /\ deleteReport (Sample.viewing (Some Sample.bob)) "report-1714560000000"
       Sample.shelf_store
     = (Sample.shelf_store, [say error "You can only delete your own reports"]).
Proof.
  apply (foreign_report_is_protected (Sample.viewing (Some Sample.bob))
           1714570000000 "report-1714560000000" _ Sample.shelf_store
           (Sample.report_of Sample.alice 1714560000000 false));
    reflexivity.
Defined.

Lemma create_report_signed_out rd now reportData s :
  user rd = None ->
  createReport rd now reportData s
    = (s, [say error "You must be logged in to create reports"]).
Proof. intros Hu. unfold createReport. now rewrite Hu. Qed.

(** C5 (as amended).  [createReport] checks that a user is signed in and
    nothing else.  For a signed-in actor every draft, the one with the
    empty title included, is committed: one new report, owned by the
    actor, with the draft's title and a zero download count, is put in
    front of the state cell and of the persisted list, both of which grow
    by one, and success is reported. *)
Theorem create_report_accepts_any_title
    (rd : Render) (now : Z) (reportData : Data.t) (s : Store)
    (u : Auth.User) :
  user rd = Some u ->
  exists r,
    createReport rd now reportData s
      = ({| cell := r :: cell s; stored := r :: stored s |},
         [say success "Report created successfully!"])
    /\ title r = Data.title reportData
    /\ userId r = Auth.id u
    /\ downloadCount r = 0%Z
    /\ length (cell (fst (createReport rd now reportData s)))
       = S (length (cell s))
    /\ length (stored (fst (createReport rd now reportData s)))
       = S (length (stored s)).
Proof.
  intros Hu. unfold createReport. rewrite Hu.
  eexists. split; [reflexivity|]. cbn. repeat split.
Qed.

Lemma create_report_accepts_any_title_witness :
  exists r,
    createReport (Sample.viewing (Some Sample.alice)) 1714570000000
        (Sample.summary_data "") Sample.shelf_store
      = ({| cell := r :: cell Sample.shelf_store;
            stored := r :: stored Sample.shelf_store |},
         [say success "Report created successfully!"])
    /\ title r = Data.title (Sample.summary_data "")
    /\ userId r = Auth.id Sample.alice
    /\ downloadCount r = 0%Z
    /\ length (cell (fst (createReport (Sample.viewing (Some Sample.alice))
                            1714570000000 (Sample.summary_data "")
                            Sample.shelf_store)))
       = S (length (cell Sample.shelf_store))
    /\ length (stored (fst (createReport (Sample.viewing (Some Sample.alice))
                              1714570000000 (Sample.summary_data "")
                              Sample.shelf_store)))
       = S (length (stored Sample.shelf_store)).
Proof.
  apply (create_report_accepts_any_title (Sample.viewing (Some Sample.alice))
           1714570000000 (Sample.summary_data "") Sample.shelf_store
           Sample.alice).
  reflexivity.
Defined.

(** C5 (as stated) fails: Alice, signed in, creates a report with the
    empty title; no error is returned, success is reported and the store
    holds three reports instead of two, the first with the empty title. *)
Lemma create_report_empty_title_persists :
  Data.title (Sample.summary_data "") = ""
  /\ snd (createReport (Sample.viewing (Some Sample.alice)) 1714570000000
            (Sample.summary_data "") Sample.shelf_store)
     = [say success "Report created successfully!"]
  /\ length (cell Sample.shelf_store) = 2
  /\ length (cell (fst (createReport (Sample.viewing (Some Sample.alice))
                          1714570000000 (Sample.summary_data "")
                          Sample.shelf_store))) = 3
  /\ length (stored (fst (createReport (Sample.viewing (Some Sample.alice))
                            1714570000000 (Sample.summary_data "")
                            Sample.shelf_store))) = 3
  /\ List.map title
       (firstn 1 (stored (fst (createReport (Sample.viewing (Some Sample.alice))
                                 1714570000000 (Sample.summary_data "")
                                 Sample.shelf_store)))) = [""].
Proof. repeat split. Qed.

End ReportStore.

(** ** Download counting *)

Section Download.

Import Notifications Reports.

Local Open Scope Z_scope.

Lemma find_replace_by_id target updated l r :
  List.find (has_id target) l = Some r ->
  has_id target updated = true ->
  List.find (has_id target) (replace_by_id target updated l) = Some updated.
Proof.
  intros Hfind Hupd. induction l as [|x l IH]; [discriminate|].
  cbn in *. destruct (has_id target x) eqn:Hx.
  - now rewrite Hupd.
  - rewrite Hx. now apply IH.
Qed.

Lemma merge_count_keeps_id report n now :
  id (merge report (Patch.downloadCount_only n) now) = id report
  /\ userId (merge report (Patch.downloadCount_only n) now) = userId report
  /\ downloadCount (merge report (Patch.downloadCount_only n) now) = n.
Proof. repeat split. Qed.

(** A failed export leaves the store untouched, whatever the render. *)
Lemma failed_export_changes_nothing ex rd now target format s :
  (forall report, List.find (has_id target) (reports rd) = Some report ->
                  generate ex format report = false) ->
  fst (downloadReport ex rd now target format s) = s.
Proof.
  intros Hfail. unfold downloadReport.
  destruct (List.find (has_id target) (reports rd)) as [report|]; [|reflexivity].
  destruct (negb (Auth.isAdmin (user rd)) && not_owner report (user rd)
            && negb (isPublic report))%bool; [reflexivity|].
  now rewrite (Hfail report eq_refl).
Qed.

(** The store a download leaves behind: untouched, or every report of the
    target id replaced by the snapshot's report with its count raised by
    one; the latter exactly when the export succeeded for an actor who
    may also edit the report. *)
Lemma downloadReport_store ex rd now target format s report :
  List.find (has_id target) (reports rd) = Some report ->
  fst (downloadReport ex rd now target format s)
  = if generate ex format report
       && (Auth.isAdmin (user rd) || negb (not_owner report (user rd)))
    then
      let bumped :=
        merge report (Patch.downloadCount_only (downloadCount report + 1)) now in
      {| cell := replace_by_id target bumped (cell s);
         stored := replace_by_id target bumped (stored s) |}
    else s.
Proof.
  intros Hfind. unfold downloadReport, updateReport. rewrite Hfind.
  destruct (Auth.isAdmin (user rd)), (not_owner report (user rd)),
    (isPublic report), (generate ex format report); reflexivity.
Qed.

(** C7.  Take a render in sync with the store and a report designated by
    [target].  If the export generator fails, the whole store, hence the
    report's [downloadCount], is unchanged.  After the call the id still
    designates a report whose [downloadCount] is either the old value or
    the old value plus one; it differs from the old value only if the
    export succeeded, and it is the old value plus one whenever the
    export succeeded for an admin or the owner. *)
Theorem download_count_follows_export
    (ex : Exporters) (rd : Render) (now : Z) (target : string)
    (format : Format) (s : Store) (report : Report) :
  in_sync rd s ->
  List.find (has_id target) (cell s) = Some report ->
  (generate ex format report = false ->
   fst (downloadReport ex rd now target format s) = s)
  /\ exists report',
       List.find (has_id target)
         (cell (fst (downloadReport ex rd now target format s))) = Some report'
       /\ (downloadCount report' = downloadCount report
           \/ downloadCount report' = downloadCount report + 1)
       /\ (downloadCount report' <> downloadCount report ->
           generate ex format report = true)
       /\ (generate ex format report = true ->
           Auth.isAdmin (user rd) = true \/ not_owner report (user rd) = false ->
           downloadCount report' = downloadCount report + 1).
Proof.
  unfold in_sync. intros Hsync Hfind. rewrite <- Hsync in Hfind.
  rewrite (downloadReport_store ex rd now target format s report Hfind).
  split.
  - intros ->. reflexivity.
  - destruct (generate ex format report
              && (Auth.isAdmin (user rd) || negb (not_owner report (user rd))))%bool
      eqn:Hgo.
    + apply andb_true_iff in Hgo as [Hgen _].
      eexists. split.
      * cbn [cell]. rewrite <- Hsync.
        eapply find_replace_by_id; [exact Hfind|].
        unfold has_id.
        rewrite (proj1 (merge_count_keeps_id report _ now)).
        apply find_has_id in Hfind as [_ ->]. apply String.eqb_refl.
      * rewrite (proj2 (proj2 (merge_count_keeps_id report _ now))).
        repeat split; auto.
    + exists report. rewrite <- Hsync. split; [exact Hfind|].
      split; [now left|]. split; [congruence|].
      intros Hgen Hmay. exfalso.
      rewrite Hgen in Hgo. cbn in Hgo.
      destruct Hmay as [Ha|Ho]; [rewrite Ha in Hgo|rewrite Ho in Hgo];
        cbn in Hgo; try discriminate.
      now rewrite orb_true_r in Hgo.
Qed.

Lemma download_count_follows_export_witness :
  (generate (Sample.exporters true) pdf
     (Sample.report_of Sample.alice 1714560000000 false) = false ->
   fst (downloadReport (Sample.exporters true)
          (Sample.viewing (Some Sample.alice)) 1714570002000
          "report-1714560000000" pdf Sample.shelf_store) = Sample.shelf_store)
  /\ exists report',
       List.find (has_id "report-1714560000000")
         (cell (fst (downloadReport (Sample.exporters true)
                       (Sample.viewing (Some Sample.alice)) 1714570002000
                       "report-1714560000000" pdf Sample.shelf_store)))
       = Some report'
       /\ (downloadCount report' = 3 \/ downloadCount report' = 3 + 1)
       /\ (downloadCount report' <> 3 ->
           generate (Sample.exporters true) pdf
             (Sample.report_of Sample.alice 1714560000000 false) = true)
       /\ (generate (Sample.exporters true) pdf
             (Sample.report_of Sample.alice 1714560000000 false) = true ->
           Auth.isAdmin (Some Sample.alice) = true
           \/ not_owner (Sample.report_of Sample.alice 1714560000000 false)
                (Some Sample.alice) = false ->
           downloadCount report' = 3 + 1).
Proof.
  apply (download_count_follows_export (Sample.exporters true)
           (Sample.viewing (Some Sample.alice)) 1714570002000
           "report-1714560000000" pdf Sample.shelf_store
           (Sample.report_of Sample.alice 1714560000000 false));
    reflexivity.
Defined.

End Download.

(** ** Notification de-duplication *)

Section Dedup.

Import Notifications.

Local Open Scope Z_scope.

Lemma notify_unfold k seen now msg ttl prev :
  notify k seen now msg ttl prev
  = if isDuplicate k seen now msg then (prev, [])
    else addNotification now k (default (default_title k) ttl) msg prev.
Proof.
  destruct k; cbn; unfold showSuccess, showError, showInfo, showWarning;
    destruct (isDuplicate _ seen now msg); reflexivity.
Qed.

Lemma kind_eqb_eq a b : kind_eqb a b = true <-> a = b.
Proof. destruct a, b; cbn; split; congruence. Qed.

Lemma isDuplicate_true k seen now msg :
  isDuplicate k seen now msg = true
  <-> exists n, In n seen /\ type n = k /\ message n = msg
                /\ now - timestamp n < 5000.
Proof.
  unfold isDuplicate. rewrite existsb_exists. split.
  - intros (n & Hin & H).
    apply andb_true_iff in H as [H Ht]. apply andb_true_iff in H as [Hm Hk].
    exists n. rewrite String.eqb_eq in Hm. rewrite kind_eqb_eq in Hk.
    apply Z.ltb_lt in Ht. auto.
  - intros (n & Hin & Hk & Hm & Ht). exists n. split; [assumption|].
    rewrite !andb_true_iff, String.eqb_eq, kind_eqb_eq, Z.ltb_lt. auto.
Qed.

Lemma isDuplicate_false k seen now msg :
  isDuplicate k seen now msg = false
  <-> forall n, In n seen -> type n = k -> message n = msg ->
                5000 <= now - timestamp n.
Proof.
  split.
  - intros Hf n Hin Hk Hm.
    destruct (Z.lt_ge_cases (now - timestamp n) 5000) as [Hlt|]; [|assumption].
    assert (isDuplicate k seen now msg = true) by (apply isDuplicate_true; eauto).
    congruence.
  - intros Hall. destruct (isDuplicate k seen now msg) eqn:Hd; [|reflexivity].
    apply isDuplicate_true in Hd as (n & Hin & Hk & Hm & Ht).
    specialize (Hall n Hin Hk Hm). lia.
Qed.

Lemma In_take {A} (x : A) n l : In x (take n l) -> In x l.
Proof.
  revert n. induction l as [|y l IH]; intros [|n]; cbn; try tauto.
  intros [->|H]; [now left|right; eauto].
Qed.

Lemma spaced_take n buffer : spaced buffer -> spaced (take n buffer).
Proof.
  revert n. induction buffer as [|x l IH]; intros [|n] H; cbn; auto.
  destruct H as [Hx Hl]. split; [|now apply IH].
  intros m Hm. apply Hx. eapply In_take. exact Hm.
Qed.

Lemma spaced_markAsRead target buffer :
  spaced buffer -> spaced (markAsRead target buffer).
Proof.
  unfold markAsRead. induction buffer as [|x l IH]; cbn; [auto|].
  intros [Hx Hl]. split; [|now apply IH].
  intros m (m0 & <- & Hm0)%in_map_iff Hkey.
  assert (Hx0 : same_key x m0 -> 5000 <= timestamp x - timestamp m0)
    by (apply Hx; assumption).
  unfold same_key in *.
  destruct (String.eqb (id x) target), (String.eqb (id m0) target);
    cbn in *; auto.
Qed.

Lemma spaced_step buffer c : spaced buffer -> spaced (step buffer c).
Proof.
  intros H. unfold step. rewrite notify_unfold.
  destruct (isDuplicate _ buffer _ _) eqn:Hd; cbn; [assumption|].
  split; [|now apply spaced_take].
  intros m Hm [Hk Hmsg]. cbn in *.
  rewrite isDuplicate_false in Hd. apply Hd; auto.
  eapply In_take. exact Hm.
Qed.

Lemma spaced_run ops buffer : spaced buffer -> spaced (run ops buffer).
Proof.
  revert buffer. induction ops as [|o ops IH]; intros buffer H; cbn; [assumption|].
  apply IH. destruct o; cbn.
  - now apply spaced_step.
  - now apply spaced_markAsRead.
  - exact I.
Qed.

(** In a spaced buffer any two distinct positions holding the same key
    are at least 5 seconds apart. *)
Lemma spaced_pairwise (buffer : list Notification) i j n m :
  spaced buffer -> i <> j ->
  buffer !! i = Some n -> buffer !! j = Some m -> same_key n m ->
  5000 <= Z.abs (timestamp n - timestamp m).
Proof.
  assert (Hlt : forall (l : list Notification) i j n m, spaced l -> (i < j)%nat ->
            l !! i = Some n -> l !! j = Some m -> same_key n m ->
            5000 <= timestamp n - timestamp m).
  { clear. induction l as [|x l IH]; intros i j n m Hs Hij Hi Hj Hk;
      [discriminate|].
    destruct Hs as [Hx Hl]. destruct j as [|j]; [lia|].
    destruct i as [|i]; cbn in *.
    - injection Hi as ->. apply Hx; [|assumption].
      apply list_elem_of_In. eapply list_elem_of_lookup_2. exact Hj.
    - apply (IH i j n m); auto. lia. }
  intros Hs Hne Hi Hj Hk.
  destruct (Nat.lt_ge_cases i j) as [Hij|Hji].
  - specialize (Hlt buffer i j n m Hs Hij Hi Hj Hk). lia.
  - assert (Hji' : (j < i)%nat) by lia.
    assert (Hk' : same_key m n) by (destruct Hk; split; congruence).
    specialize (Hlt buffer j i m n Hs Hji' Hj Hi Hk'). lia.
Qed.

End Dedup.

Section DedupClaims.

Import Notifications.

Local Open Scope Z_scope.

Lemma unreadCount_cons n buffer :
  unreadCount (n :: buffer)
  = if read n then unreadCount buffer else S (unreadCount buffer).
Proof. unfold unreadCount. cbn. now destruct (read n). Qed.

(** C6 (as amended).  A [notify] call made from a render in sync with the
    buffer is a silent no-op (same buffer, no toast) when the buffer still
    holds an entry of the same kind and message stamped less than 5
    seconds before the call.  Hence when a call that is not suppressed is
    followed within 2 seconds by a second call of the same kind and
    message that sees the first one's entry, the two store exactly one
    notification; the unread count is one more than that of the nine
    newest earlier entries, so one more than before whenever fewer than
    ten entries were held.  A buffer in which equal (kind, message)
    entries are at least 5 seconds apart stays so under such a call, and
    every buffer built from the empty one by such calls, [markAsRead] and
    [clearNotifications] has any two entries of equal (kind, message) at
    least 5 seconds apart. *)
Theorem dedup_over_retained_buffer
    (k : Kind) (buffer : list Notification) (now : Z) (msg : string)
    (ttl : option string) :
  ((exists n, In n buffer /\ type n = k /\ message n = msg
              /\ now - timestamp n < 5000) ->
   notify k buffer now msg ttl buffer = (buffer, []))
  /\ (forall later ttl',
        now <= later <= now + 2000 ->
        (forall n, In n buffer -> type n = k -> message n = msg ->
                   5000 <= now - timestamp n) ->
        exists e,
          fst (notify k buffer now msg ttl buffer) = e :: take 9 buffer
          /\ type e = k /\ message e = msg /\ timestamp e = now
          /\ notify k (e :: take 9 buffer) later msg ttl' (e :: take 9 buffer)
             = (e :: take 9 buffer, [])
          /\ unreadCount (e :: take 9 buffer) = S (unreadCount (take 9 buffer))
          /\ ((length buffer < 10)%nat ->
              unreadCount (e :: take 9 buffer) = S (unreadCount buffer)))
  /\ (spaced buffer -> spaced (fst (notify k buffer now msg ttl buffer)))
  /\ (forall ops i j n m,
        i <> j ->
        run ops [] !! i = Some n -> run ops [] !! j = Some m ->
        same_key n m ->
        5000 <= Z.abs (timestamp n - timestamp m)).
Proof.
  split; [|split; [|split]].
  - intros Hdup. rewrite notify_unfold.
    now rewrite (proj2 (isDuplicate_true k buffer now msg) Hdup).
  - intros later ttl' Hlater Hfresh.
    rewrite notify_unfold.
    rewrite (proj2 (isDuplicate_false k buffer now msg) Hfresh).
    cbn [addNotification fst].
    eexists. split; [reflexivity|]. cbn [type message timestamp].
    repeat (split; [reflexivity|]).
    split; [|split].
    + rewrite notify_unfold.
      match goal with
      | |- context [isDuplicate k (?e :: ?l) later msg] =>
          rewrite (proj2 (isDuplicate_true k (e :: l) later msg)); [reflexivity|]
      end.
      eexists. split; [now left|]. cbn. repeat split. lia.
    + now rewrite unreadCount_cons.
    + intros Hlen. rewrite unreadCount_cons. cbn [read].
      rewrite take_ge by lia. reflexivity.
  - intros Hs.
    apply (spaced_step buffer
             {| call_time := now; call_kind := k; call_message := msg;
                call_title := ttl |} Hs).
  - intros ops i j n m. apply spaced_pairwise. now apply spaced_run.
Qed.

Lemma dedup_over_retained_buffer_witness :
  notify success (run [Notify (Sample.saved 1714570000000)] []) 1714570001500
      "Saved" None (run [Notify (Sample.saved 1714570000000)] [])
    = (run [Notify (Sample.saved 1714570000000)] [], [])
  /\ exists e,
       fst (notify success [] 1714570000000 "Saved" None []) = [e]
       /\ notify success [e] 1714570001500 "Saved" None [e] = ([e], [])
       /\ unreadCount [e] = S (unreadCount []).
Proof.
  split.
  - apply (dedup_over_retained_buffer success
             (run [Notify (Sample.saved 1714570000000)] []) 1714570001500
             "Saved" None).
    eexists. split; [now left|]. cbn. repeat split.
  - destruct (proj1 (proj2 (dedup_over_retained_buffer success []
                              1714570000000 "Saved" None))
                1714570001500 None) as (e & He & _ & _ & _ & Hsecond & _ & Hcount).
    + lia.
    + intros n [].
    + exists e. split; [exact He|]. split; [exact Hsecond|].
      apply Hcount. cbn. lia.
Defined.

(** C6 (as stated) fails.  "Saved" is notified and stored; ten other
    notifications follow within 1.1 seconds and push it out of the
    ten-entry buffer; a second "Saved", 1.5 seconds after the first, is
    then not recognised as a duplicate: it is stored and toasted again. *)
Lemma suppressing_entry_can_be_evicted :
  List.map message (run [Notify (Sample.saved 1714570000000)] []) = ["Saved"]
  /\ length (run Sample.burst []) = 10%nat
  /\ ~ In "Saved" (List.map message (run Sample.burst []))
  /\ 1714570001500 - 1714570000000 < 2000
  /\ snd (notify success (run Sample.burst []) 1714570001500 "Saved" None
            (run Sample.burst []))
     = [{| toast_kind := success; toast_message := "Saved" |}]
  /\ List.map (fun n => (message n, timestamp n))
       (firstn 1 (fst (notify success (run Sample.burst []) 1714570001500
                         "Saved" None (run Sample.burst []))))
     = [("Saved", 1714570001500)]
  /\ fst (notify success (run Sample.burst []) 1714570001500 "Saved" None
            (run Sample.burst []))
     <> run Sample.burst [].
Proof.
  repeat split; try (vm_compute; reflexivity).
  - vm_compute. intuition discriminate.
  - vm_compute. intros H. discriminate H.
Qed.

(** Two calls made from one and the same render both scan the snapshot of
    that render, not the entry the first of them queued: both insert. *)
Remark same_render_calls_both_insert :
  let first := fst (showSuccess [] 1714570000000 "Saved" None []) in
  List.map message
    (fst (showSuccess [] 1714570000001 "Saved" None first))
  = ["Saved"; "Saved"].
Proof. reflexivity. Qed.

End DedupClaims.

(** ** Session start-up *)

Section Session.

Import Auth.

Local Open Scope Z_scope.

(** C9.  When the stored claim decodes and its expiry lies in the past at
    validation time, [initializeAuth] rejects it: the token is removed
    from storage, "Session expired. Please login again." is reported, the
    claim's identity is not installed (the signed-in user is whoever it
    was before, nobody at mount), so the holder is unauthenticated and has
    to log in again. *)
Theorem expired_claim_is_rejected
    (jwtDecode : string -> option TokenPayload) (now : Z) (st : AuthState)
    (token : string) (decoded : TokenPayload) :
  jwtDecode token = Some decoded ->
  exp decoded * 1000 < now ->
  initializeAuth jwtDecode now st (Some token)
    = ({| user := user st; isLoading := false |},
       None,
       [ToastError "Session expired. Please login again."])
  /\ initializeAuth jwtDecode now mount (Some token)
     = ({| user := None; isLoading := false |},
        None,
        [ToastError "Session expired. Please login again."])
  /\ isAuthenticated
       (user (fst (fst (initializeAuth jwtDecode now mount (Some token)))))
     = false.
Proof.
  intros Hdec Hexp.
  assert (Hgt : (exp decoded * 1000 >? now) = false).
  { rewrite Z.gtb_ltb. apply Z.ltb_ge. lia. }
  unfold initializeAuth. rewrite Hdec, Hgt. repeat split.
Qed.

Lemma expired_claim_is_rejected_witness :
  initializeAuth Sample.decoder 1714640400001
      {| user := Some Sample.bob; isLoading := true |}
      (Some "header.alice.signature")
    = ({| user := Some Sample.bob; isLoading := false |},
       None,
       [ToastError "Session expired. Please login again."])
  /\ initializeAuth Sample.decoder 1714640400001 mount
       (Some "header.alice.signature")
     = ({| user := None; isLoading := false |},
        None,
        [ToastError "Session expired. Please login again."])
  /\ isAuthenticated
       (user (fst (fst (initializeAuth Sample.decoder 1714640400001 mount
                          (Some "header.alice.signature")))))
     = false.
Proof.
  apply (expired_claim_is_rejected Sample.decoder 1714640400001
           {| user := Some Sample.bob; isLoading := true |}
           "header.alice.signature"
           {| payload_user := Sample.alice; iat := 1714554000;
              exp := 1714640400 |}).
  - reflexivity.
  - reflexivity.
Defined.

(** A claim that has not expired is accepted and kept in storage. *)
Lemma live_claim_is_accepted jwtDecode now st token decoded :
  jwtDecode token = Some decoded ->
  now < exp decoded * 1000 ->
  initializeAuth jwtDecode now st (Some token)
  = ({| user := Some (payload_user decoded); isLoading := false |},
     Some token, updateLastLogin (id (payload_user decoded))).
Proof.
  intros Hdec Hlive.
  assert (Hgt : (exp decoded * 1000 >? now) = true).
  { rewrite Z.gtb_ltb. apply Z.ltb_lt. lia. }
  unfold initializeAuth. now rewrite Hdec, Hgt.
Qed.

End Session.

(** ** The all-records accessors for a non-admin *)

Section AllRecords.

(** C10.  For an actor who is not an admin (signed-out visitors
    included), whatever the provider states and storage hold,
    [getAllReports] returns exactly [getUserReports] and
    [getAllClassifications] exactly [getUserClassifications]. *)
Theorem all_records_is_own_records_for_members
    (actor : option Auth.User) (reports : list Reports.Report)
    (classifications : list Classification.ClassificationResult)
    (ls : Classification.LocalStorage) :
  Auth.isAdmin actor = false ->
  Reports.getAllReports
      {| Reports.user := actor; Reports.reports := reports |}
    = Reports.getUserReports
        {| Reports.user := actor; Reports.reports := reports |}
  /\ Classification.getAllClassifications
       {| Classification.user := actor;
          Classification.classifications := classifications |} ls
     = Classification.getUserClassifications
         {| Classification.user := actor;
            Classification.classifications := classifications |}.
Proof.
  intros Hadm.
  unfold Reports.getAllReports, Classification.getAllClassifications.
  cbn [Reports.user Classification.user]. rewrite Hadm. split; reflexivity.
Qed.

Lemma all_records_is_own_records_for_members_witness :
  Reports.getAllReports (Sample.viewing (Some Sample.bob))
    = Reports.getUserReports (Sample.viewing (Some Sample.bob))
  /\ Classification.getAllClassifications (Sample.as_user Sample.bob)
       Sample.empty_storage
     = Classification.getUserClassifications (Sample.as_user Sample.bob).
Proof.
  apply (all_records_is_own_records_for_members (Some Sample.bob) Sample.shelf
           [] Sample.empty_storage).
  reflexivity.
Defined.

End AllRecords.

(** * Further properties of the providers *)

(** ** The notification buffer *)

Section Buffer.

Import Notifications.

Lemma notify_length k seen now msg ttl prev :
  (length prev <= 10)%nat ->
  (length (fst (notify k seen now msg ttl prev)) <= 10)%nat.
Proof.
  intros H. rewrite notify_unfold.
  destruct (isDuplicate k seen now msg); cbn; [assumption|].
  rewrite length_take. lia.
Qed.

Lemma unreadCount_le_length buffer : (unreadCount buffer <= length buffer)%nat.
Proof. unfold unreadCount. apply filter_length_le. Qed.

(** X1.  The buffer is capped: a buffer of at most ten entries stays at
    most ten entries long under any sequence of notifications, read
    marks and clears, so the unread count never exceeds ten either; an
    insertion into a buffer of any length leaves one entry more than
    before, capped at ten. *)
Theorem buffer_never_exceeds_ten (ops : list Op) (buffer : list Notification) :
  (length buffer <= 10)%nat ->
  (length (run ops buffer) <= 10)%nat
  /\ (unreadCount (run ops buffer) <= 10)%nat
  /\ forall now k ttl msg (prev : list Notification),
       length (fst (addNotification now k ttl msg prev))
       = Nat.min 10 (S (length prev)).
Proof.
  intros H.
  assert (Hlen : (length (run ops buffer) <= 10)%nat).
  { revert buffer H. induction ops as [|o ops IH]; intros buffer H; cbn;
      [assumption|].
    apply IH. destruct o; cbn.
    - unfold step. now apply notify_length.
    - unfold markAsRead. now rewrite length_map.
    - lia. }
  split; [assumption|]. split.
  - pose proof (unreadCount_le_length (run ops buffer)). lia.
  - intros now k ttl msg prev. cbn [addNotification fst length].
    rewrite length_take. lia.
Qed.

Lemma buffer_never_exceeds_ten_witness :
  (length (run (Sample.burst ++ [Notify (Sample.saved 1714570001500)]) [])
   <= 10)%nat
  /\ (unreadCount
        (run (Sample.burst ++ [Notify (Sample.saved 1714570001500)]) [])
      <= 10)%nat
  /\ forall now k ttl msg (prev : list Notification),
       length (fst (addNotification now k ttl msg prev))
       = Nat.min 10 (S (length prev)).
Proof.
  apply (buffer_never_exceeds_ten
           (Sample.burst ++ [Notify (Sample.saved 1714570001500)]) []).
  cbn. lia.
Defined.

Lemma markAsRead_unchanged target buffer :
  (forall n, In n buffer -> id n = target -> read n = true) ->
  markAsRead target buffer = buffer.
Proof.
  unfold markAsRead. induction buffer as [|x l IH]; intros H; cbn; [reflexivity|].
  rewrite IH by (intros n Hn; apply H; now right). f_equal.
  destruct (String.eqb_spec (id x) target) as [E|E]; [|reflexivity].
  assert (Hr : read x = true) by (apply H; [now left|assumption]).
  destruct x; cbn in *. now rewrite Hr.
Qed.

(** X2.  [markAsRead] is idempotent and keeps the buffer's length; it
    lowers the unread count by exactly the number of unread entries
    carrying the id (ids are clock readings, so several entries can carry
    it); and it changes nothing at all when no entry carries the id or
    all that do are already read. *)
Theorem markAsRead_marks_every_entry_of_the_id
    (target : string) (buffer : list Notification) :
  markAsRead target (markAsRead target buffer) = markAsRead target buffer
  /\ length (markAsRead target buffer) = length buffer
  /\ (unreadCount (markAsRead target buffer)
      + length (List.filter
                  (fun n => String.eqb (id n) target && negb (read n)) buffer)
      = unreadCount buffer)%nat
  /\ ((forall n, In n buffer -> id n = target -> read n = true) ->
      markAsRead target buffer = buffer).
Proof.
  split; [|split; [|split]].
  - apply markAsRead_unchanged. unfold markAsRead.
    intros n (m & <- & _)%in_map_iff Hid.
    destruct (String.eqb_spec (id m) target) as [E|E]; [reflexivity|].
    cbn in Hid. contradiction.
  - unfold markAsRead. apply length_map.
  - unfold unreadCount, markAsRead.
    induction buffer as [|x l IH]; cbn; [reflexivity|].
    destruct (String.eqb (id x) target), (read x); cbn; lia.
  - apply markAsRead_unchanged.
Qed.

End Buffer.

(** ** Deleting and resetting classifications *)

Section ClassificationRemoval.

Import Notifications Classification.

Lemma key_inj a b : key a = key b -> a = b.
Proof. unfold key. cbn. intros H. now inversion H. Qed.

Lemma find_has_id_none target (l : list ClassificationResult) :
  List.find (has_id target) (List.filter (fun c => negb (has_id target c)) l)
  = None.
Proof.
  induction l as [|x l IH]; cbn; [reflexivity|].
  destruct (has_id target x) eqn:E; cbn; [assumption|]. now rewrite E.
Qed.

Lemma filter_fresh_id target (l : list ClassificationResult) :
  (forall c, In c l -> id c <> target) ->
  List.filter (fun c => negb (has_id target c)) l = l.
Proof.
  induction l as [|x l IH]; intros H; cbn; [reflexivity|].
  unfold has_id at 1.
  destruct (String.eqb_spec (id x) target) as [E|E]; cbn.
  - exfalso. apply (H x); [now left|assumption].
  - f_equal. apply IH. intros c Hc. apply H. now right.
Qed.

(** X3.  [deleteClassification] writes at most the caller's own storage
    key: the stored list of every other identity and the registered
    identities are the same after any call, by a member or by an admin.
    When the id designates nothing, or designates a record of another
    owner and the caller is not an admin, the store is left exactly as it
    was. *)
Theorem delete_touches_only_own_key
    (rd : Render) (target : string) (s : Store) :
  (forall other,
      (forall u, user rd = Some u -> Auth.id u <> other) ->
      items (storage (fst (deleteClassification rd target s))) !! key other
      = items (storage s) !! key other)
  /\ registeredUsers (storage (fst (deleteClassification rd target s)))
     = registeredUsers (storage s)
  /\ (List.find (has_id target) (classifications rd) = None ->
      fst (deleteClassification rd target s) = s)
  /\ (forall c,
        List.find (has_id target) (classifications rd) = Some c ->
        Auth.isAdmin (user rd) = false ->
        not_owner c (user rd) = true ->
        fst (deleteClassification rd target s) = s).
Proof.
  unfold deleteClassification.
  destruct (List.find (has_id target) (classifications rd)) as [c|] eqn:Hf.
  - destruct (negb (Auth.isAdmin (user rd)) && not_owner c (user rd)) eqn:Hg.
    + repeat split; auto; discriminate.
    + cbn [fst storage]. split; [|split; [|split]].
      * intros other Hne. destruct (user rd) as [u|]; [|reflexivity].
        cbn. apply lookup_insert_ne. intros E. apply key_inj in E.
        now apply (Hne u).
      * now destruct (user rd).
      * discriminate.
      * intros c' [= <-] Ha Ho. rewrite Ha, Ho in Hg. discriminate.
  - repeat split; auto; discriminate.
Qed.

(** X4.  When a signed-in owner (or an admin) deletes a record found in
    the render's list, every record with that id leaves the state cell,
    the others stay in their order, the same list is written under the
    caller's key, and a second delete of the id from the next render
    finds nothing and changes nothing. *)
Theorem delete_removes_the_id_for_good
    (rd : Render) (target : string) (s : Store) (u : Auth.User)
    (c : ClassificationResult) :
  user rd = Some u ->
  List.find (has_id target) (classifications rd) = Some c ->
  Auth.isAdmin (user rd) = true \/ userId c = Auth.id u ->
  let s' := fst (deleteClassification rd target s) in
  cell s'
    = List.filter (fun c => negb (has_id target c)) (classifications rd)
  /\ getItem (key (Auth.id u)) (storage s') = cell s'
  /\ (forall c', In c' (cell s') <-> In c' (classifications rd) /\ id c' <> target)
  /\ deleteClassification (rerender (Some u) s') target s'
     = (s', [{| req_kind := error; req_message := "Classification not found";
                req_title := None |}]).
Proof.
  intros Hu Hf Hmay s'.
  assert (Hg : negb (Auth.isAdmin (user rd)) && not_owner c (user rd) = false).
  { destruct Hmay as [Ha|Ho]; [now rewrite Ha|].
    rewrite Hu. cbn [not_owner]. rewrite Ho, String.eqb_refl.
    now rewrite andb_false_r. }
  assert (Hs : s' = {| cell := List.filter (fun c => negb (has_id target c))
                                 (classifications rd);
                       storage := setItem (key (Auth.id u))
                                    (List.filter (fun c => negb (has_id target c))
                                       (classifications rd)) (storage s) |}).
  { unfold s', deleteClassification. rewrite Hf, Hg, Hu. reflexivity. }
  rewrite Hs. cbn [cell storage]. split; [reflexivity|]. split; [|split].
  - unfold getItem, setItem. cbn. now rewrite lookup_insert_eq.
  - intros c'. rewrite filter_In. unfold has_id.
    destruct (String.eqb_spec (id c') target); cbn; intuition congruence.
  - unfold deleteClassification, rerender. cbn [classifications cell].
    now rewrite find_has_id_none.
Qed.

Lemma delete_removes_the_id_for_good_witness :
  let rd := rerender (Some Sample.alice)
              (fst (addClassification (Sample.as_user Sample.alice)
                      1714560000000 Sample.battery Sample.fresh)) in
  let s := fst (addClassification (Sample.as_user Sample.alice)
                  1714560000000 Sample.battery Sample.fresh) in
  let s' := fst (deleteClassification rd "classification-1714560000000" s) in
  cell s'
    = List.filter (fun c => negb (has_id "classification-1714560000000" c))
        (classifications rd)
  /\ getItem (key (Auth.id Sample.alice)) (storage s') = cell s'
  /\ (forall c', In c' (cell s')
                 <-> In c' (classifications rd)
                     /\ id c' <> "classification-1714560000000")
  /\ deleteClassification (rerender (Some Sample.alice) s')
       "classification-1714560000000" s'
     = (s', [{| req_kind := error; req_message := "Classification not found";
                req_title := None |}]).
Proof.
  intros rd s.
  eapply (delete_removes_the_id_for_good rd "classification-1714560000000" s
            Sample.alice).
  - reflexivity.
  - reflexivity.
  - right. reflexivity.
Defined.

Lemma created_record rd now result s u :
  user rd = Some u ->
  exists r,
    fst (addClassification rd now result s)
      = {| cell := r :: classifications rd;
           storage := setItem (key (Auth.id u)) (r :: classifications rd)
                        (storage s) |}
    /\ id r = "classification-" +:+ Js.toString now
    /\ userId r = Auth.id u.
Proof.
  intros Hu. unfold addClassification. rewrite Hu. cbn [fst].
  eexists. split; [reflexivity|]. split; reflexivity.
Qed.

(** X5.  Creating a record and deleting it again by its id, from the
    render that follows the create, gives back the list the create
    started from, in the state cell and under the user's storage key,
    provided no earlier record already carried the id the create
    assigned; if that key held the render's list before, the whole
    storage is as before. *)
Theorem create_then_delete_restores
    (rd : Render) (now : Z) (result : Draft.t) (s : Store) (u : Auth.User) :
  user rd = Some u ->
  (forall c, In c (classifications rd) ->
             id c <> "classification-" +:+ Js.toString now) ->
  let s1 := fst (addClassification rd now result s) in
  let s2 := fst (deleteClassification (rerender (Some u) s1)
                   ("classification-" +:+ Js.toString now) s1) in
  cell s2 = classifications rd
  /\ getItem (key (Auth.id u)) (storage s2) = classifications rd
  /\ (items (storage s) !! key (Auth.id u) = Some (classifications rd) ->
      storage s2 = storage s).
Proof.
  intros Hu Hfresh s1 s2.
  destruct (created_record rd now result s u Hu) as (r & Hs1 & Hid & Hown).
  assert (Hs2 : s2 = {| cell := classifications rd;
                        storage := setItem (key (Auth.id u)) (classifications rd)
                                     (setItem (key (Auth.id u))
                                        (r :: classifications rd) (storage s)) |}).
  { assert (Hhas : has_id ("classification-" +:+ Js.toString now) r = true).
    { unfold has_id. rewrite Hid. apply String.eqb_refl. }
    assert (Hfind : List.find (has_id ("classification-" +:+ Js.toString now))
                      (r :: classifications rd) = Some r).
    { cbn [List.find]. now rewrite Hhas. }
    assert (Hfilter : List.filter
                        (fun c => negb (has_id ("classification-"
                                                +:+ Js.toString now) c))
                        (r :: classifications rd) = classifications rd).
    { cbn [List.filter]. rewrite Hhas. cbn [negb].
      apply filter_fresh_id. exact Hfresh. }
    unfold s2, s1. rewrite Hs1.
    unfold deleteClassification, rerender. cbn [classifications cell user storage].
    rewrite Hfind, Hfilter.
    cbn [not_owner]. rewrite Hown, String.eqb_refl. cbn [negb].
    rewrite andb_false_r. reflexivity. }
  rewrite Hs2. cbn [cell storage]. split; [reflexivity|]. split.
  - unfold getItem, setItem. cbn. now rewrite lookup_insert_eq.
  - intros Hheld. unfold setItem. cbn. destruct (storage s) as [reg its].
    cbn in *. f_equal. rewrite insert_insert_eq. now apply insert_id.
Qed.

Lemma create_then_delete_restores_witness :
  let s1 := fst (addClassification (Sample.as_user Sample.alice) 1714560000000
                   Sample.battery Sample.fresh) in
  let s2 := fst (deleteClassification (rerender (Some Sample.alice) s1)
                   ("classification-" +:+ Js.toString 1714560000000) s1) in
  cell s2 = []
  /\ getItem (key (Auth.id Sample.alice)) (storage s2) = []
  /\ (items (storage Sample.fresh) !! key (Auth.id Sample.alice) = Some [] ->
      storage s2 = storage Sample.fresh).
Proof.
  apply (create_then_delete_restores (Sample.as_user Sample.alice)
           1714560000000 Sample.battery Sample.fresh Sample.alice).
  - reflexivity.
  - intros c [].
Defined.

End ClassificationRemoval.

Section ClassificationReset.

Import Notifications Classification.

Lemma removed_keep_registered users ls :
  registeredUsers
    (fold_left (fun ls u' => removeItem (key (Auth.id u')) ls) users ls)
  = registeredUsers ls.
Proof.
  revert ls. induction users as [|v users IH]; intros ls; cbn; [reflexivity|].
  now rewrite IH.
Qed.

Lemma removed_lookup users ls k :
  items (fold_left (fun ls u' => removeItem (key (Auth.id u')) ls) users ls) !! k
  = if bool_decide (Exists (fun v => key (Auth.id v) = k) users) then None
    else items ls !! k.
Proof.
  revert ls. induction users as [|v users IH]; intros ls; cbn [fold_left].
  - rewrite bool_decide_eq_false_2; [reflexivity|]. now rewrite Exists_nil.
  - rewrite IH. cbn [removeItem items].
    destruct (decide (key (Auth.id v) = k)) as [E|E].
    + rewrite (bool_decide_eq_true_2 (Exists _ (v :: users)))
        by (now apply Exists_cons_hd).
      rewrite E, lookup_delete_eq. now case_bool_decide.
    + rewrite lookup_delete_ne by exact E.
      destruct (decide (Exists (fun v => key (Auth.id v) = k) users)) as [X|X].
      * rewrite !bool_decide_eq_true_2; auto.
      * rewrite !bool_decide_eq_false_2; auto.
        rewrite Exists_cons. tauto.
Qed.

Lemma flat_map_all_nil {A B} (f : A -> list B) (l : list A) :
  (forall x, In x l -> f x = []) -> flat_map f l = [].
Proof.
  induction l as [|x l IH]; intros H; cbn; [reflexivity|].
  rewrite H by now left. apply IH. intros y Hy. apply H. now right.
Qed.

(** X6.  A member's reset empties the member's own list, in the state
    cell and in storage, and touches nothing else: the stored list of
    every other identity and the registered identities are as before. *)
Theorem member_reset_clears_own_list_only
    (rd : Render) (s : Store) (u : Auth.User) :
  user rd = Some u ->
  Auth.isAdmin (user rd) = false ->
  cell (fst (resetUserClassifications rd s)) = []
  /\ loadClassifications (Some u) (storage (fst (resetUserClassifications rd s)))
     = []
  /\ (forall other,
        other <> Auth.id u ->
        items (storage (fst (resetUserClassifications rd s))) !! key other
        = items (storage s) !! key other)
  /\ registeredUsers (storage (fst (resetUserClassifications rd s)))
     = registeredUsers (storage s).
Proof.
  intros Hu Ha. unfold resetUserClassifications. rewrite Hu in *. rewrite Ha.
  cbn [fst cell storage]. split; [reflexivity|]. split; [|split].
  - unfold loadClassifications, getItem, removeItem. cbn.
    now rewrite lookup_delete_eq.
  - intros other Hne. cbn. apply lookup_delete_ne.
    intros E. apply key_inj in E. congruence.
  - reflexivity.
Qed.

Lemma member_reset_clears_own_list_only_witness :
  let s := fst (addClassification (Sample.as_user Sample.alice) 1714560000000
                  Sample.battery Sample.fresh) in
  let rd := rerender (Some Sample.alice) s in
  cell (fst (resetUserClassifications rd s)) = []
  /\ loadClassifications (Some Sample.alice)
       (storage (fst (resetUserClassifications rd s))) = []
  /\ (forall other,
        other <> Auth.id Sample.alice ->
        items (storage (fst (resetUserClassifications rd s))) !! key other
        = items (storage s) !! key other)
  /\ registeredUsers (storage (fst (resetUserClassifications rd s)))
     = registeredUsers (storage s).
Proof.
  intros s rd.
  apply (member_reset_clears_own_list_only rd s Sample.alice); reflexivity.
Defined.

(** X7.  An admin's reset removes the stored list of every registered
    identity and empties the state cell, so the admin's listing of all
    classifications is empty afterwards; keys of identities that are not
    registered, and the registered identities themselves, are as
    before. *)
Theorem admin_reset_clears_every_registered_list
    (rd : Render) (s : Store) (u : Auth.User) :
  user rd = Some u ->
  Auth.isAdmin (user rd) = true ->
  cell (fst (resetUserClassifications rd s)) = []
  /\ (forall v, In v (registeredUsers (storage s)) ->
        items (storage (fst (resetUserClassifications rd s))) !! key (Auth.id v)
        = None)
  /\ getAllClassifications
       (rerender (Some u) (fst (resetUserClassifications rd s)))
       (storage (fst (resetUserClassifications rd s))) = []
  /\ (forall other,
        (forall v, In v (registeredUsers (storage s)) -> Auth.id v <> other) ->
        items (storage (fst (resetUserClassifications rd s))) !! key other
        = items (storage s) !! key other)
  /\ registeredUsers (storage (fst (resetUserClassifications rd s)))
     = registeredUsers (storage s).
Proof.
  intros Hu Ha. unfold resetUserClassifications. rewrite Hu in *. rewrite Ha.
  cbn [fst cell storage].
  assert (Hgone : forall v, In v (registeredUsers (storage s)) ->
            items (fold_left (fun ls u' => removeItem (key (Auth.id u')) ls)
                     (registeredUsers (storage s)) (storage s))
              !! key (Auth.id v) = None).
  { intros v Hv. rewrite removed_lookup.
    rewrite bool_decide_eq_true_2; [reflexivity|].
    apply Exists_exists. exists v.
    split; [now apply list_elem_of_In|reflexivity]. }
  split; [reflexivity|]. split; [exact Hgone|]. split; [|split].
  - unfold getAllClassifications, rerender. cbn [user]. rewrite Ha. cbn [negb].
    rewrite removed_keep_registered, gather_flat_map. cbn [app].
    rewrite flat_map_all_nil; [reflexivity|].
    intros v Hv. unfold getItem. now rewrite Hgone.
  - intros other Hne. rewrite removed_lookup.
    rewrite bool_decide_eq_false_2; [reflexivity|].
    rewrite Exists_exists. intros (v & Hv & E). apply key_inj in E.
    apply (Hne v); [now apply list_elem_of_In|assumption].
  - apply removed_keep_registered.
Qed.

Lemma admin_reset_clears_every_registered_list_witness :
  let s := {| cell := [];
              storage := storage (fst (addClassification
                                         (Sample.as_user Sample.alice)
                                         1714560000000 Sample.battery
                                         Sample.fresh)) |} in
  let rd := Sample.as_user Sample.root in
  cell (fst (resetUserClassifications rd s)) = []
  /\ (forall v, In v (registeredUsers (storage s)) ->
        items (storage (fst (resetUserClassifications rd s))) !! key (Auth.id v)
        = None)
  /\ getAllClassifications
       (rerender (Some Sample.root) (fst (resetUserClassifications rd s)))
       (storage (fst (resetUserClassifications rd s))) = []
  /\ (forall other,
        (forall v, In v (registeredUsers (storage s)) -> Auth.id v <> other) ->
        items (storage (fst (resetUserClassifications rd s))) !! key other
        = items (storage s) !! key other)
  /\ registeredUsers (storage (fst (resetUserClassifications rd s)))
     = registeredUsers (storage s).
Proof.
  intros s rd.
  apply (admin_reset_clears_every_registered_list rd s Sample.root);
    reflexivity.
Defined.

End ClassificationReset.

(** ** Dashboard statistics *)

Section Statistics.

Import Classification.

Local Open Scope Z_scope.

Lemma countedTotal_step (m : gmap string Tally) k t :
  m !! k = None ->
  countedTotal (<[k := t]> m)
  = match t with Count n => n | Text => 0 end + countedTotal m.
Proof.
  intros Hk. unfold countedTotal.
  rewrite map_fold_insert_L; [reflexivity| |assumption].
  intros j1 j2 z1 z2 y _ _ _. destruct z1, z2; lia.
Qed.

Lemma countedTotal_raise (m : gmap string Tally) k n :
  m !! k = Some (Count n) ->
  countedTotal (<[k := Count (n + 1)]> m) = countedTotal m + 1.
Proof.
  intros Hk.
  rewrite <- (insert_delete_id m k (Count n) Hk) at 2.
  rewrite <- insert_delete_eq.
  rewrite !countedTotal_step by apply lookup_delete_eq. lia.
Qed.

Lemma tally_lookup (m : gmap string Tally) c k :
  category c ∉ Js.objectPrototypeNames ->
  map_Forall (fun _ t => t <> Text) m ->
  tally m c !! k
  = if String.eqb (category c) k
    then Some (Count (match m !! k with Some (Count n) => n + 1 | _ => 1 end))
    else m !! k.
Proof.
  intros Hni Hm. unfold tally.
  destruct (String.eqb_spec (category c) k) as [E|E].
  - subst k. cbv zeta. destruct (m !! category c) as [[n|]|] eqn:Hk.
    + apply lookup_insert_eq.
    + exfalso. now apply (Hm _ Text Hk).
    + rewrite bool_decide_eq_false_2 by exact Hni. apply lookup_insert_eq.
  - destruct (m !! category c) as [[n|]|] eqn:Hk.
    + now apply lookup_insert_ne.
    + now apply lookup_insert_ne.
    + rewrite bool_decide_eq_false_2 by exact Hni. now apply lookup_insert_ne.
Qed.

Lemma tally_keeps_counts (m : gmap string Tally) c :
  category c ∉ Js.objectPrototypeNames ->
  map_Forall (fun _ t => t <> Text) m ->
  map_Forall (fun _ t => t <> Text) (tally m c)
  /\ countedTotal (tally m c) = countedTotal m + 1.
Proof.
  intros Hni Hm. unfold tally.
  destruct (m !! category c) as [[n|]|] eqn:Hk.
  - split; [|now apply countedTotal_raise].
    apply map_Forall_insert_2; [discriminate|assumption].
  - exfalso. now apply (Hm _ Text Hk).
  - rewrite bool_decide_eq_false_2 by exact Hni. split.
    + apply map_Forall_insert_2; [discriminate|assumption].
    + rewrite countedTotal_step by exact Hk. lia.
Qed.

Lemma histogram_fold (l : list ClassificationResult) (m : gmap string Tally) :
  (forall c, In c l -> category c ∉ Js.objectPrototypeNames) ->
  map_Forall (fun _ t => t <> Text) m ->
  countedTotal (fold_left tally l m) = countedTotal m + Z.of_nat (length l)
  /\ forall k,
       fold_left tally l m !! k
       = match m !! k with
         | Some (Count n) => Some (Count (n + Z.of_nat (occurrences k l)))
         | _ => if (occurrences k l =? 0)%nat then None
                else Some (Count (Z.of_nat (occurrences k l)))
         end.
Proof.
  revert m. induction l as [|c l IH]; intros m Hni Hm.
  - cbn. split; [lia|]. intros k.
    destruct (m !! k) as [[n|]|] eqn:Hk; rewrite ?Z.add_0_r; try reflexivity.
    exfalso. now apply (Hm k Text Hk).
  - assert (Hc : category c ∉ Js.objectPrototypeNames) by (apply Hni; now left).
    destruct (tally_keeps_counts m c Hc Hm) as [Hm' Hsum].
    destruct (IH (tally m c) (fun x Hx => Hni x (or_intror Hx)) Hm')
      as [IHsum IHk].
    cbn [fold_left]. split.
    + rewrite IHsum, Hsum. cbn [length]. lia.
    + intros k. rewrite IHk, (tally_lookup m c k Hc Hm).
      unfold occurrences. cbn [List.filter].
      destruct (String.eqb (category c) k); cbn [length].
      * destruct (m !! k) as [[n|]|]; f_equal; f_equal; lia.
      * reflexivity.
Qed.

(** X8.  When no visible record's category is a name inherited from
    [Object.prototype], the category histogram of the statistics holds,
    for every category, exactly the number of visible records of that
    category (no entry for a category without records), and its counts
    add up to [total]. *)
Theorem histogram_counts_every_record (rd : Render) (ls : LocalStorage) :
  (forall c,
      In c (if Auth.isAdmin (user rd) then getAllClassifications rd ls
            else getUserClassifications rd) ->
      category c ∉ Js.objectPrototypeNames) ->
  countedTotal (categories (getClassificationStats rd ls))
    = Z.of_nat (total (getClassificationStats rd ls))
  /\ forall k,
       categories (getClassificationStats rd ls) !! k
       = let n := occurrences k
                    (if Auth.isAdmin (user rd) then getAllClassifications rd ls
                     else getUserClassifications rd) in
         if (n =? 0)%nat then None else Some (Count (Z.of_nat n)).
Proof.
  intros Hni. unfold getClassificationStats. cbn [categories total].
  destruct (histogram_fold _ ∅ Hni (map_Forall_empty _)) as [Hsum Hk].
  split.
  - rewrite Hsum. unfold countedTotal. now rewrite map_fold_empty.
  - intros k. rewrite Hk. now rewrite lookup_empty.
Qed.

Lemma histogram_counts_every_record_witness :
  let s := fst (addClassification (Sample.as_user Sample.alice) 1714560000000
                  Sample.battery Sample.fresh) in
  let rd := rerender (Some Sample.alice) s in
  countedTotal (categories (getClassificationStats rd (storage s)))
    = Z.of_nat (total (getClassificationStats rd (storage s)))
  /\ forall k,
       categories (getClassificationStats rd (storage s)) !! k
       = let n := occurrences k
                    (if Auth.isAdmin (user rd)
                     then getAllClassifications rd (storage s)
                     else getUserClassifications rd) in
         if (n =? 0)%nat then None else Some (Count (Z.of_nat n)).
Proof.
  intros s rd.
  apply (histogram_counts_every_record rd (storage s)).
  intros c Hc. cbn in Hc. destruct Hc as [<-|[]].
  rewrite list_elem_of_In. cbn. intuition discriminate.
Defined.

Lemma insert_newest_sorted x l :
  StronglySorted (fun a b => timestamp b <= timestamp a) l ->
  StronglySorted (fun a b => timestamp b <= timestamp a) (insert_newest x l).
Proof.
  induction l as [|y l IH]; intros Hs; cbn.
  - constructor; [constructor|constructor].
  - apply StronglySorted_inv in Hs as [Hl Hy].
    destruct (Z.gtb_spec (timestamp y) (timestamp x)) as [Hgt|Hle].
    + constructor; [now apply IH|].
      rewrite List.Forall_forall. intros z Hz.
      apply (Permutation_in _ (insert_newest_perm x l)) in Hz.
      destruct Hz as [<-|Hz]; [lia|].
      rewrite List.Forall_forall in Hy. now apply Hy.
    + constructor; [now constructor|].
      constructor; [lia|].
      rewrite List.Forall_forall in *. intros z Hz.
      specialize (Hy z Hz). cbn in Hy. lia.
Qed.

Lemma sort_newest_sorted l :
  StronglySorted (fun a b => timestamp b <= timestamp a) (sort_newest l).
Proof.
  induction l as [|x l IH]; cbn; [constructor|].
  now apply insert_newest_sorted.
Qed.

Lemma sorted_split (l : list ClassificationResult) n a b :
  StronglySorted (fun a b => timestamp b <= timestamp a) l ->
  In a (take n l) -> In b (drop n l) -> timestamp b <= timestamp a.
Proof.
  revert n. induction l as [|x l IH]; intros [|n] Hs Ha Hb; cbn in *;
    try contradiction.
  apply StronglySorted_inv in Hs as [Hl Hx].
  destruct Ha as [<-|Ha].
  - rewrite List.Forall_forall in Hx. apply Hx.
    rewrite <- (take_drop n l). apply in_or_app. now right.
  - now apply (IH n).
Qed.

(** X9.  For an admin the listing of all classifications is ordered
    newest first, and the statistics' recent activity is its first five
    entries: none of the records left out of it is newer than any record
    in it.  The recent activity holds five records, or all of them when
    there are fewer, and the hazardous count does not exceed the total. *)
Theorem admin_statistics_show_the_newest (rd : Render) (ls : LocalStorage) :
  Auth.isAdmin (user rd) = true ->
  StronglySorted (fun a b => timestamp b <= timestamp a)
    (getAllClassifications rd ls)
  /\ (forall a b,
        In a (recentActivity (getClassificationStats rd ls)) ->
        In b (drop 5 (getAllClassifications rd ls)) ->
        timestamp b <= timestamp a)
  /\ length (recentActivity (getClassificationStats rd ls))
     = Nat.min 5 (total (getClassificationStats rd ls))
  /\ (hazardous (getClassificationStats rd ls)
      <= total (getClassificationStats rd ls))%nat.
Proof.
  intros Ha.
  assert (Hs : StronglySorted (fun a b => timestamp b <= timestamp a)
                 (getAllClassifications rd ls)).
  { unfold getAllClassifications. rewrite Ha. cbn [negb].
    apply sort_newest_sorted. }
  unfold getClassificationStats. rewrite Ha.
  cbn [recentActivity total hazardous].
  split; [exact Hs|]. split; [|split].
  - intros a b. now apply sorted_split.
  - apply length_take.
  - apply filter_length_le.
Qed.

Lemma admin_statistics_show_the_newest_witness :
  let ls := storage (fst (addClassification (Sample.as_user Sample.alice)
                            1714560000000 Sample.battery Sample.fresh)) in
  let rd := Sample.as_user Sample.root in
  StronglySorted (fun a b => timestamp b <= timestamp a)
    (getAllClassifications rd ls)
  /\ (forall a b,
        In a (recentActivity (getClassificationStats rd ls)) ->
        In b (drop 5 (getAllClassifications rd ls)) ->
        timestamp b <= timestamp a)
  /\ length (recentActivity (getClassificationStats rd ls))
     = Nat.min 5 (total (getClassificationStats rd ls))
  /\ (hazardous (getClassificationStats rd ls)
      <= total (getClassificationStats rd ls))%nat.
Proof.
  intros ls rd.
  apply (admin_statistics_show_the_newest rd ls). reflexivity.
Defined.

End Statistics.

(** ** Updating and deleting reports *)

Section ReportChanges.

Import Notifications Reports.

Lemma may_edit_guard rd report :
  Auth.isAdmin (user rd) = true \/ not_owner report (user rd) = false ->
  negb (Auth.isAdmin (user rd)) && not_owner report (user rd) = false.
Proof. intros [->| ->]; [reflexivity|apply andb_false_r]. Qed.

Lemma replace_by_id_other target updated (l : list Report) i r :
  l !! i = Some r -> id r <> target ->
  replace_by_id target updated l !! i = Some r.
Proof.
  intros Hi Hne. unfold replace_by_id.
  change (List.map ?f l) with (f <$> l).
  rewrite list_lookup_fmap, Hi. cbn. unfold has_id.
  destruct (String.eqb_spec (id r) target); [contradiction|reflexivity].
Qed.

(** X10.  A permitted update (by an admin or the owner) keeps the number
    of reports and leaves every report with another id in its place, in
    the state cell and in the persisted list.  Seen from a render in
    sync, and unless the patch renames the id, the id then designates
    the merged report: its [updatedAt] is the time of the call even when
    the patch supplies one, and its owner is unchanged unless the patch
    names one. *)
Theorem update_rewrites_only_the_target
    (rd : Render) (now : Z) (target : string) (updates : Patch.t) (s : Store)
    (report : Report) :
  List.find (has_id target) (reports rd) = Some report ->
  Auth.isAdmin (user rd) = true \/ not_owner report (user rd) = false ->
  length (cell (fst (updateReport rd now target updates s))) = length (cell s)
  /\ length (stored (fst (updateReport rd now target updates s)))
     = length (stored s)
  /\ (forall i r, id r <> target ->
        (cell s !! i = Some r ->
         cell (fst (updateReport rd now target updates s)) !! i = Some r)
        /\ (stored s !! i = Some r ->
            stored (fst (updateReport rd now target updates s)) !! i = Some r))
  /\ (in_sync rd s -> Patch.id updates = None ->
      exists merged,
        List.find (has_id target)
          (cell (fst (updateReport rd now target updates s))) = Some merged
        /\ updatedAt merged = now
        /\ createdAt merged = default (createdAt report) (Patch.createdAt updates)
        /\ (Patch.userId updates = None -> userId merged = userId report)).
Proof.
  intros Hfind Hmay. unfold updateReport.
  rewrite Hfind, (may_edit_guard rd report Hmay). cbn [fst cell stored].
  split; [apply length_map|]. split; [apply length_map|]. split.
  - intros i r Hne. split; intros Hi; now apply replace_by_id_other.
  - intros Hsync Hid. exists (merge report updates now).
    split; [|split; [reflexivity|split; [reflexivity|]]].
    + unfold in_sync in Hsync. rewrite <- Hsync.
      eapply find_replace_by_id; [exact Hfind|].
      unfold has_id, merge. cbn [id]. rewrite Hid. cbn [default].
      apply find_has_id in Hfind as [_ ->]. apply String.eqb_refl.
    + intros Hu. unfold merge. cbn [userId]. now rewrite Hu.
Qed.

Lemma update_rewrites_only_the_target_witness :
  let rd := Sample.viewing (Some Sample.alice) in
  let updates :=
    {| Patch.id := None; Patch.userId := None;
       Patch.title := Some "April summary"; Patch.type := None;
       Patch.content := None; Patch.createdAt := None;
       Patch.updatedAt := Some 0%Z; Patch.size := None; Patch.status := None;
       Patch.downloadCount := None; Patch.isPublic := None;
       Patch.tags := None; Patch.fileUrl := None |} in
  let s' := fst (updateReport rd 1714570000000 "report-1714560000000" updates
                   Sample.shelf_store) in
  length (cell s') = length (cell Sample.shelf_store)
  /\ length (stored s') = length (stored Sample.shelf_store)
  /\ (forall i r, id r <> "report-1714560000000" ->
        (cell Sample.shelf_store !! i = Some r -> cell s' !! i = Some r)
        /\ (stored Sample.shelf_store !! i = Some r -> stored s' !! i = Some r))
  /\ (in_sync rd Sample.shelf_store -> Patch.id updates = None ->
      exists merged,
        List.find (has_id "report-1714560000000") (cell s') = Some merged
        /\ updatedAt merged = 1714570000000%Z
        /\ createdAt merged
           = default (createdAt (Sample.report_of Sample.alice 1714560000000 false))
               (Patch.createdAt updates)
        /\ (Patch.userId updates = None ->
            userId merged
            = userId (Sample.report_of Sample.alice 1714560000000 false))).
Proof.
  intros rd updates s'.
  apply (update_rewrites_only_the_target rd 1714570000000
           "report-1714560000000" updates Sample.shelf_store
           (Sample.report_of Sample.alice 1714560000000 false)).
  - reflexivity.
  - right. reflexivity.
Defined.

Lemma replaced_reports_owner target updated (l : list Report) r :
  In r (replace_by_id target updated l) -> id r = target ->
  id updated = target -> r = updated.
Proof.
  unfold replace_by_id. intros (x & Hx & _)%in_map_iff Hid Hupd.
  unfold has_id in Hx. destruct (String.eqb_spec (id x) target) as [E|E].
  - now symmetry.
  - subst r. contradiction.
Qed.

(** X11.  Ownership can be given away: when the owner, not an admin,
    updates a report with a patch that names another identity as
    [userId], the report leaves the owner's own list and, from the next
    render on, the former owner's updates and deletes of that id are
    refused with the permission error and change nothing. *)
Theorem owner_can_hand_a_report_over
    (rd : Render) (now : Z) (target : string) (updates : Patch.t) (s : Store)
    (u : Auth.User) (report : Report) (other : string) :
  user rd = Some u ->
  Auth.isAdmin (user rd) = false ->
  in_sync rd s ->
  List.find (has_id target) (reports rd) = Some report ->
  userId report = Auth.id u ->
  Patch.id updates = None ->
  Patch.userId updates = Some other ->
  other <> Auth.id u ->
  let s' := fst (updateReport rd now target updates s) in
  (forall now' updates',
      updateReport (rerender (Some u) s') now' target updates' s'
      = (s', [say error "You can only edit your own reports"]))
  /\ deleteReport (rerender (Some u) s') target s'
     = (s', [say error "You can only delete your own reports"])
  /\ (forall r, In r (getUserReports (rerender (Some u) s')) -> id r <> target).
Proof.
  intros Hu Ha Hsync Hfind Hown Hid Hto Hne s'.
  assert (Hmay : Auth.isAdmin (user rd) = true \/ not_owner report (user rd) = false).
  { right. rewrite Hu. cbn. now rewrite Hown, String.eqb_refl. }
  assert (Htarget : id report = target) by (now apply find_has_id in Hfind).
  assert (Hs' : s' = {| cell := replace_by_id target (merge report updates now) (cell s);
                        stored := replace_by_id target (merge report updates now)
                                    (stored s) |}).
  { unfold s', updateReport. now rewrite Hfind, (may_edit_guard rd report Hmay). }
  assert (Hmid : id (merge report updates now) = target).
  { unfold merge. cbn [id]. now rewrite Hid. }
  assert (Hmown : not_owner (merge report updates now) (Some u) = true).
  { unfold merge, not_owner. cbn [userId]. rewrite Hto. cbn.
    destruct (String.eqb_spec other (Auth.id u)); [contradiction|reflexivity]. }
  assert (Hf' : List.find (has_id target) (reports (rerender (Some u) s'))
                = Some (merge report updates now)).
  { rewrite Hs'. cbn [rerender reports cell]. unfold in_sync in Hsync.
    rewrite <- Hsync. eapply find_replace_by_id; [exact Hfind|].
    unfold has_id. rewrite Hmid. apply String.eqb_refl. }
  assert (Ha' : Auth.isAdmin (user (rerender (Some u) s')) = false).
  { cbn. now rewrite Hu in Ha. }
  split; [|split].
  - intros now' updates'. eapply update_denied; eassumption.
  - eapply delete_denied; eassumption.
  - intros r Hr Hrid. unfold getUserReports in Hr. cbn [rerender user reports] in Hr.
    apply filter_In in Hr as [Hin Heq]. rewrite Hs' in Hin. cbn [cell] in Hin.
    pose proof (replaced_reports_owner _ _ _ _ Hin Hrid Hmid) as ->.
    unfold not_owner in Hmown. rewrite Heq in Hmown. discriminate.
Qed.

Lemma owner_can_hand_a_report_over_witness :
  let rd := Sample.viewing (Some Sample.alice) in
  let updates :=
    {| Patch.id := None; Patch.userId := Some (Auth.id Sample.bob);
       Patch.title := None; Patch.type := None;
       Patch.content := None; Patch.createdAt := None;
       Patch.updatedAt := None; Patch.size := None; Patch.status := None;
       Patch.downloadCount := None; Patch.isPublic := None;
       Patch.tags := None; Patch.fileUrl := None |} in
  let s' := fst (updateReport rd 1714570000000 "report-1714560000000" updates
                   Sample.shelf_store) in
  (forall now' updates',
      updateReport (rerender (Some Sample.alice) s') now'
        "report-1714560000000" updates' s'
      = (s', [say error "You can only edit your own reports"]))
  /\ deleteReport (rerender (Some Sample.alice) s') "report-1714560000000" s'
     = (s', [say error "You can only delete your own reports"])
  /\ (forall r, In r (getUserReports (rerender (Some Sample.alice) s')) ->
                id r <> "report-1714560000000").
Proof.
  intros rd updates s'.
  apply (owner_can_hand_a_report_over rd 1714570000000 "report-1714560000000"
           updates Sample.shelf_store Sample.alice
           (Sample.report_of Sample.alice 1714560000000 false)
           (Auth.id Sample.bob)); try reflexivity.
  vm_compute. discriminate.
Defined.

End ReportChanges.

Section ReportLifecycle.

Import Notifications Reports.

Lemma find_after_removal target (l : list Report) :
  List.find (has_id target) (List.filter (fun r => negb (has_id target r)) l)
  = None.
Proof.
  induction l as [|x l IH]; cbn; [reflexivity|].
  destruct (has_id target x) eqn:E; cbn; [assumption|]. now rewrite E.
Qed.

Lemma removal_of_fresh_id target (l : list Report) :
  (forall r, In r l -> id r <> target) ->
  List.filter (fun r => negb (has_id target r)) l = l.
Proof.
  induction l as [|x l IH]; intros H; cbn; [reflexivity|].
  unfold has_id at 1.
  destruct (String.eqb_spec (id x) target) as [E|E]; cbn.
  - exfalso. apply (H x); [now left|assumption].
  - f_equal. apply IH. intros r Hr. apply H. now right.
Qed.

(** X12.  A permitted delete (by an admin or the owner) removes every
    report with the id from the state cell and from the persisted list
    and keeps all the others; from the next render on the id designates
    nothing: deleting, updating or downloading it reports "Report not
    found" and changes nothing. *)
Theorem delete_removes_the_report_for_good
    (ex : Exporters) (rd : Render) (target : string) (s : Store)
    (report : Report) :
  List.find (has_id target) (reports rd) = Some report ->
  Auth.isAdmin (user rd) = true \/ not_owner report (user rd) = false ->
  let s' := fst (deleteReport rd target s) in
  (forall r, In r (cell s') <-> In r (cell s) /\ id r <> target)
  /\ (forall r, In r (stored s') <-> In r (stored s) /\ id r <> target)
  /\ forall who now updates format,
       deleteReport (rerender who s') target s'
         = (s', [say error "Report not found"])
       /\ updateReport (rerender who s') now target updates s'
          = (s', [say error "Report not found"])
       /\ downloadReport ex (rerender who s') now target format s'
          = (s', [say error "Report not found"]).
Proof.
  intros Hfind Hmay s'.
  assert (Hs' : s' = {| cell := List.filter (fun r => negb (has_id target r)) (cell s);
                        stored := List.filter (fun r => negb (has_id target r))
                                    (stored s) |}).
  { unfold s', deleteReport. now rewrite Hfind, (may_edit_guard rd report Hmay). }
  assert (Hin : forall l r,
            In r (List.filter (fun r => negb (has_id target r)) l)
            <-> In r l /\ id r <> target).
  { intros l r. rewrite filter_In. unfold has_id.
    destruct (String.eqb_spec (id r) target); cbn; intuition congruence. }
  rewrite Hs'. cbn [cell stored]. split; [apply Hin|]. split; [apply Hin|].
  intros who now updates format.
  unfold deleteReport, updateReport, downloadReport, rerender.
  cbn [reports cell]. rewrite find_after_removal. repeat split.
Qed.

Lemma delete_removes_the_report_for_good_witness :
  let rd := Sample.viewing (Some Sample.alice) in
  let s' := fst (deleteReport rd "report-1714560000000" Sample.shelf_store) in
  (forall r, In r (cell s')
             <-> In r (cell Sample.shelf_store) /\ id r <> "report-1714560000000")
  /\ (forall r, In r (stored s')
                <-> In r (stored Sample.shelf_store)
                    /\ id r <> "report-1714560000000")
  /\ forall who now updates format,
       deleteReport (rerender who s') "report-1714560000000" s'
         = (s', [say error "Report not found"])
       /\ updateReport (rerender who s') now "report-1714560000000" updates s'
          = (s', [say error "Report not found"])
       /\ downloadReport (Sample.exporters true) (rerender who s') now
            "report-1714560000000" format s'
          = (s', [say error "Report not found"]).
Proof.
  intros rd s'.
  apply (delete_removes_the_report_for_good (Sample.exporters true) rd
           "report-1714560000000" Sample.shelf_store
           (Sample.report_of Sample.alice 1714560000000 false)).
  - reflexivity.
  - right. reflexivity.
Defined.

Lemma created_report rd now reportData s u :
  user rd = Some u ->
  exists r,
    createReport rd now reportData s
      = ({| cell := r :: cell s; stored := r :: stored s |},
         [say success "Report created successfully!"])
    /\ id r = "report-" +:+ Js.toString now
    /\ userId r = Auth.id u
    /\ title r = Data.title reportData.
Proof.
  intros Hu. unfold createReport. rewrite Hu.
  eexists. split; [reflexivity|]. repeat split.
Qed.

(** X13.  Creating a report and deleting it again by its id, from the
    render that follows the create, restores the store exactly, state
    cell and persisted list, provided no report already carried the id
    the create assigned. *)
Theorem create_then_delete_report_restores
    (rd : Render) (now : Z) (reportData : Data.t) (s : Store) (u : Auth.User) :
  user rd = Some u ->
  (forall r, In r (cell s) \/ In r (stored s) ->
             id r <> "report-" +:+ Js.toString now) ->
  deleteReport (rerender (Some u) (fst (createReport rd now reportData s)))
    ("report-" +:+ Js.toString now) (fst (createReport rd now reportData s))
  = (s, [say success "Report deleted successfully!"]).
Proof.
  intros Hu Hfresh.
  destruct (created_report rd now reportData s u Hu) as (r & -> & Hid & Hown & _).
  cbn [fst].
  assert (Hhas : has_id ("report-" +:+ Js.toString now) r = true).
  { unfold has_id. rewrite Hid. apply String.eqb_refl. }
  unfold deleteReport, rerender. cbn [reports cell stored user List.find].
  rewrite Hhas. cbn [not_owner]. rewrite Hown, String.eqb_refl. cbn [negb].
  rewrite andb_false_r. cbn [List.filter]. rewrite Hhas. cbn [negb].
  rewrite !removal_of_fresh_id by (intros x Hx; apply Hfresh; tauto).
  now destruct s.
Qed.

Lemma create_then_delete_report_restores_witness :
  deleteReport
    (rerender (Some Sample.alice)
       (fst (createReport (Sample.viewing (Some Sample.alice)) 1714570000000
               (Sample.summary_data "April") Sample.shelf_store)))
    ("report-" +:+ Js.toString 1714570000000)
    (fst (createReport (Sample.viewing (Some Sample.alice)) 1714570000000
            (Sample.summary_data "April") Sample.shelf_store))
  = (Sample.shelf_store, [say success "Report deleted successfully!"]).
Proof.
  apply (create_then_delete_report_restores (Sample.viewing (Some Sample.alice))
           1714570000000 (Sample.summary_data "April") Sample.shelf_store
           Sample.alice).
  - reflexivity.
  - intros r Hr. vm_compute in Hr. vm_compute.
    intuition (subst; discriminate).
Defined.

(** X14.  A visitor who is neither admin nor owner is refused a private
    report before any export runs.  A public report is exported for such
    a visitor, but the download count is not raised: the store is left
    as it was, and the call reports the edit refusal between its
    progress and success notices. *)
Theorem stranger_download_leaves_the_count
    (ex : Exporters) (rd : Render) (now : Z) (target : string)
    (format : Format) (s : Store) (report : Report) :
  List.find (has_id target) (reports rd) = Some report ->
  Auth.isAdmin (user rd) = false ->
  not_owner report (user rd) = true ->
  (isPublic report = false ->
   downloadReport ex rd now target format s
   = (s, [say error "You do not have permission to download this report"]))
  /\ (isPublic report = true ->
      generate ex format report = true ->
      downloadReport ex rd now target format s
      = (s, [say info ("Preparing " +:+ upper format +:+ " download...");
             say error "You can only edit your own reports";
             say success (upper format +:+ " report downloaded successfully!")])).
Proof.
  intros Hfind Ha Ho. unfold downloadReport, updateReport.
  rewrite Hfind, Ha, Ho. split.
  - intros ->. reflexivity.
  - intros -> ->. reflexivity.
Qed.

Lemma stranger_download_leaves_the_count_witness :
  (isPublic (Sample.report_of Sample.bob 1714560001000 true) = false ->
   downloadReport (Sample.exporters true) (Sample.viewing (Some Sample.alice))
     1714570002000 "report-1714560001000" csv Sample.shelf_store
   = (Sample.shelf_store,
      [say error "You do not have permission to download this report"]))
  /\ (isPublic (Sample.report_of Sample.bob 1714560001000 true) = true ->
      generate (Sample.exporters true) csv
        (Sample.report_of Sample.bob 1714560001000 true) = true ->
      downloadReport (Sample.exporters true)
        (Sample.viewing (Some Sample.alice)) 1714570002000
        "report-1714560001000" csv Sample.shelf_store
      = (Sample.shelf_store,
         [say info ("Preparing " +:+ upper csv +:+ " download...");
          say error "You can only edit your own reports";
          say success (upper csv +:+ " report downloaded successfully!")])).
Proof.
  apply (stranger_download_leaves_the_count (Sample.exporters true)
           (Sample.viewing (Some Sample.alice)) 1714570002000
           "report-1714560001000" csv Sample.shelf_store
           (Sample.report_of Sample.bob 1714560001000 true));
    reflexivity.
Defined.

(** X15.  After a create by a signed-in user, seen from the next render,
    the new report heads the user's own list and the role-dependent list
    of all reports, in front of what those lists held before; it is
    owned by the creator and its id is "report-" followed by the clock
    reading. *)
Theorem created_report_heads_the_lists
    (rd : Render) (now : Z) (reportData : Data.t) (s : Store) (u : Auth.User) :
  user rd = Some u ->
  in_sync rd s ->
  exists r,
    getUserReports (rerender (Some u) (fst (createReport rd now reportData s)))
      = r :: getUserReports rd
    /\ getAllReports (rerender (Some u) (fst (createReport rd now reportData s)))
       = r :: getAllReports rd
    /\ userId r = Auth.id u
    /\ id r = "report-" +:+ Js.toString now
    /\ title r = Data.title reportData.
Proof.
  intros Hu Hsync.
  destruct (created_report rd now reportData s u Hu) as (r & -> & Hid & Hown & Ht).
  exists r. cbn [fst]. unfold in_sync in Hsync.
  assert (Hmine : getUserReports (rerender (Some u)
                    {| cell := r :: cell s; stored := r :: stored s |})
                  = r :: getUserReports rd).
  { unfold getUserReports, rerender. cbn [user reports cell List.filter].
    rewrite Hu, Hown, String.eqb_refl, Hsync. reflexivity. }
  split; [exact Hmine|]. split; [|auto].
  unfold getAllReports. rewrite Hmine. cbn [rerender user reports cell].
  rewrite Hu. destruct (Auth.isAdmin (Some u)); cbn [negb]; [|reflexivity].
  now rewrite Hsync.
Qed.

Lemma created_report_heads_the_lists_witness :
  exists r,
    getUserReports
      (rerender (Some Sample.alice)
         (fst (createReport (Sample.viewing (Some Sample.alice)) 1714570000000
                 (Sample.summary_data "April") Sample.shelf_store)))
      = r :: getUserReports (Sample.viewing (Some Sample.alice))
    /\ getAllReports
         (rerender (Some Sample.alice)
            (fst (createReport (Sample.viewing (Some Sample.alice))
                    1714570000000 (Sample.summary_data "April")
                    Sample.shelf_store)))
       = r :: getAllReports (Sample.viewing (Some Sample.alice))
    /\ userId r = Auth.id Sample.alice
    /\ id r = "report-" +:+ Js.toString 1714570000000
    /\ title r = Data.title (Sample.summary_data "April").
Proof.
  apply (created_report_heads_the_lists (Sample.viewing (Some Sample.alice))
           1714570000000 (Sample.summary_data "April") Sample.shelf_store
           Sample.alice); reflexivity.
Defined.

End ReportLifecycle.

(** ** Accounts and sessions *)

Section Accounts.

Import Account.

Local Open Scope Z_scope.

Lemma checkUserExists_spec mail b :
  checkUserExists mail b = true
  <-> exists u, In u (registeredUsers b) /\ Auth.email u = mail.
Proof.
  unfold checkUserExists. rewrite existsb_exists.
  split; intros (u & Hu & He); exists u; split; auto;
    now apply String.eqb_eq.
Qed.

Lemma signup_success lib now userData st b u :
  checkUserExists (email userData) b = false ->
  u = Auth.newUser now (toISOString lib now) (Js.trim (name userData))
        (Js.lowerCase (email userData)) (userType userData) ->
  jwtDecode lib (issue lib now u)
    = Some {| Auth.payload_user := u; Auth.iat := now / 1000;
              Auth.exp := now / 1000 + 24 * 60 * 60 |} ->
  signup lib now userData st b
  = ({| Auth.user := Some u; Auth.isLoading := false |},
     {| token := Some (issue lib now u);
        registeredUsers := registeredUsers b ++ [u];
        others := others b |},
     [ToastSuccess ("Welcome back, " +:+ Auth.name u +:+ "!");
      ToastSuccess "Account created successfully! Welcome to EcoVision!"],
     Returned).
Proof.
  intros Hfree -> Hdec. unfold signup. rewrite Hfree.
  unfold login. rewrite Hdec. reflexivity.
Qed.

(** X16.  A sign-up with an address not yet registered, whose issued
    token the decoder reads back, appends exactly one identity to the
    registered list, with the trimmed name and the lower-cased address,
    installs it as the signed-in user and stores its token.  From then on
    the lower-cased address is known, and any further sign-up under it is
    refused with "User already exists. Please login instead." and leaves
    storage and the signed-in user as they are. *)
Theorem signup_registers_the_address_once
    (lib : Library) (now : Z) (userData : SignupData) (st : Auth.AuthState)
    (b : Browser) (u : Auth.User) :
  checkUserExists (email userData) b = false ->
  u = Auth.newUser now (toISOString lib now) (Js.trim (name userData))
        (Js.lowerCase (email userData)) (userType userData) ->
  jwtDecode lib (issue lib now u)
    = Some {| Auth.payload_user := u; Auth.iat := now / 1000;
              Auth.exp := now / 1000 + 24 * 60 * 60 |} ->
  exists b',
    signup lib now userData st b
    = ({| Auth.user := Some u; Auth.isLoading := false |}, b',
       [ToastSuccess ("Welcome back, " +:+ Auth.name u +:+ "!");
        ToastSuccess "Account created successfully! Welcome to EcoVision!"],
       Returned)
    /\ registeredUsers b' = registeredUsers b ++ [u]
    /\ token b' = Some (issue lib now u)
    /\ others b' = others b
    /\ checkUserExists (Js.lowerCase (email userData)) b' = true
    /\ forall now' again st',
         email again = Js.lowerCase (email userData) ->
         signup lib now' again st' b'
         = ({| Auth.user := Auth.user st'; Auth.isLoading := false |}, b',
            [ToastError "User already exists. Please login instead."],
            Thrown "User already exists. Please login instead.").
Proof.
  intros Hfree Hu Hdec.
  eexists. split; [now apply signup_success|]. cbn [registeredUsers token others].
  assert (Hknown : checkUserExists (Js.lowerCase (email userData))
                     {| token := Some (issue lib now u);
                        registeredUsers := registeredUsers b ++ [u];
                        others := others b |} = true).
  { apply checkUserExists_spec. exists u. cbn [registeredUsers]. split.
    - apply in_or_app. right. now left.
    - now subst u. }
  repeat split; auto.
  intros now' again st' Hmail. unfold signup. now rewrite Hmail, Hknown.
Qed.

Lemma signup_registers_the_address_once_witness :
  exists b',
    signup Sample.library 1714554000000 Sample.alice_form Auth.mount
      Sample.empty_browser
    = ({| Auth.user := Some Sample.alice; Auth.isLoading := false |}, b',
       [ToastSuccess ("Welcome back, " +:+ Auth.name Sample.alice +:+ "!");
        ToastSuccess "Account created successfully! Welcome to EcoVision!"],
       Returned)
    /\ registeredUsers b' = registeredUsers Sample.empty_browser ++ [Sample.alice]
    /\ token b' = Some (issue Sample.library 1714554000000 Sample.alice)
    /\ others b' = others Sample.empty_browser
    /\ checkUserExists (Js.lowerCase (email Sample.alice_form)) b' = true
    /\ forall now' again st',
         email again = Js.lowerCase (email Sample.alice_form) ->
         signup Sample.library now' again st' b'
         = ({| Auth.user := Auth.user st'; Auth.isLoading := false |}, b',
            [ToastError "User already exists. Please login instead."],
            Thrown "User already exists. Please login instead.").
Proof.
  apply (signup_registers_the_address_once Sample.library 1714554000000
           Sample.alice_form Auth.mount Sample.empty_browser Sample.alice);
    reflexivity.
Defined.

(** X17.  The duplicate check compares the address as typed with the
    lower-cased addresses in storage.  So when the typed address is not
    already lower-case, signing up twice with the very same form succeeds
    twice and leaves two registered identities with the same address. *)
Theorem capitals_bypass_the_duplicate_check
    (lib : Library) (now now' : Z) (userData : SignupData)
    (st : Auth.AuthState) (b : Browser) (u1 u2 : Auth.User) :
  checkUserExists (email userData) b = false ->
  Js.lowerCase (email userData) <> email userData ->
  u1 = Auth.newUser now (toISOString lib now) (Js.trim (name userData))
         (Js.lowerCase (email userData)) (userType userData) ->
  u2 = Auth.newUser now' (toISOString lib now') (Js.trim (name userData))
         (Js.lowerCase (email userData)) (userType userData) ->
  jwtDecode lib (issue lib now u1)
    = Some {| Auth.payload_user := u1; Auth.iat := now / 1000;
              Auth.exp := now / 1000 + 24 * 60 * 60 |} ->
  jwtDecode lib (issue lib now' u2)
    = Some {| Auth.payload_user := u2; Auth.iat := now' / 1000;
              Auth.exp := now' / 1000 + 24 * 60 * 60 |} ->
  exists b1 b2 said1 said2,
    signup lib now userData st b
      = ({| Auth.user := Some u1; Auth.isLoading := false |}, b1, said1, Returned)
    /\ signup lib now' userData
         {| Auth.user := Some u1; Auth.isLoading := false |} b1
       = ({| Auth.user := Some u2; Auth.isLoading := false |}, b2, said2,
          Returned)
    /\ registeredUsers b2 = registeredUsers b ++ [u1; u2]
    /\ Auth.email u1 = Auth.email u2.
Proof.
  intros Hfree Hcase Hu1 Hu2 Hd1 Hd2.
  pose proof (signup_success lib now userData st b u1 Hfree Hu1 Hd1) as H1.
  assert (Hfree1 : checkUserExists (email userData)
                     {| token := Some (issue lib now u1);
                        registeredUsers := registeredUsers b ++ [u1];
                        others := others b |} = false).
  { unfold checkUserExists in *. cbn [registeredUsers].
    rewrite existsb_app, Hfree. cbn.
    rewrite orb_false_r. apply String.eqb_neq. now subst u1. }
  pose proof (signup_success lib now' userData
                {| Auth.user := Some u1; Auth.isLoading := false |}
                _ u2 Hfree1 Hu2 Hd2) as H2.
  do 4 eexists. split; [exact H1|]. split; [exact H2|].
  cbn [registeredUsers]. split.
  - now rewrite <- app_assoc.
  - now subst u1 u2.
Qed.

Lemma capitals_bypass_the_duplicate_check_witness :
  exists b1 b2 said1 said2,
    signup Sample.library 1714554000000 Sample.alice_form Auth.mount
        Sample.empty_browser
      = ({| Auth.user := Some Sample.alice; Auth.isLoading := false |}, b1,
         said1, Returned)
    /\ signup Sample.library 1714554000000 Sample.alice_form
         {| Auth.user := Some Sample.alice; Auth.isLoading := false |} b1
       = ({| Auth.user := Some Sample.alice; Auth.isLoading := false |}, b2,
          said2, Returned)
    /\ registeredUsers b2
       = registeredUsers Sample.empty_browser ++ [Sample.alice; Sample.alice]
    /\ Auth.email Sample.alice = Auth.email Sample.alice.
Proof.
  apply (capitals_bypass_the_duplicate_check Sample.library 1714554000000
           1714554000000 Sample.alice_form Auth.mount Sample.empty_browser
           Sample.alice Sample.alice); try reflexivity.
  vm_compute. discriminate.
Defined.

End Accounts.

Section Sessions.

Import Account.

Local Open Scope Z_scope.



(** X19.  [login] does not look at the expiry: a decodable token that
    has already expired still installs its identity and is stored.  The
    session does not outlive the page, though: a reload at any later time
    rejects the token, removes it and starts signed out. *)
Theorem login_ignores_expiry_reload_does_not
    (lib : Library) (t : string) (st : Auth.AuthState) (b : Browser)
    (decoded : Auth.TokenPayload) (now later : Z) :
  jwtDecode lib t = Some decoded ->
  Auth.exp decoded * 1000 <= now ->
  now <= later ->
  exists said,
    login lib t st b
      = ({| Auth.user := Some (Auth.payload_user decoded);
            Auth.isLoading := Auth.isLoading st |},
         setToken (Some t) b, said, Returned)
    /\ reload lib later (setToken (Some t) b)
       = ({| Auth.user := None; Auth.isLoading := false |}, setToken None b).
Proof.
  intros Hdec Hexp Hlater. unfold login, reload, Auth.initializeAuth.
  cbn [token setToken]. rewrite Hdec.
  assert (Hgt : (Auth.exp decoded * 1000 >? later) = false).
  { rewrite Z.gtb_ltb. apply Z.ltb_ge. lia. }
  rewrite Hgt. eexists. split; reflexivity.
Qed.

Lemma login_ignores_expiry_reload_does_not_witness :
  exists said,
    login Sample.library "header.alice.signature" Auth.mount
        Sample.empty_browser
      = ({| Auth.user := Some Sample.alice;
            Auth.isLoading := Auth.isLoading Auth.mount |},
         setToken (Some "header.alice.signature") Sample.empty_browser,
         said, Returned)
    /\ reload Sample.library 1714640500000
         (setToken (Some "header.alice.signature") Sample.empty_browser)
       = ({| Auth.user := None; Auth.isLoading := false |},
          setToken None Sample.empty_browser).
Proof.
  apply (login_ignores_expiry_reload_does_not Sample.library
           "header.alice.signature" Auth.mount Sample.empty_browser
           {| Auth.payload_user := Sample.alice; Auth.iat := 1714554000;
              Auth.exp := 1714640400 |} 1714640400000 1714640500000).
  - reflexivity.
  - vm_compute. discriminate.
  - vm_compute. discriminate.
Defined.

(** X20.  A session opened by sign-up survives a page reload for 24
    hours counted from the whole second of the sign-up: reloading before
    [(now / 1000 + 86400) * 1000] restores the same identity and keeps
    the token; reloading at or after that instant removes the token and
    starts signed out. *)
Theorem signup_session_lasts_a_day
    (lib : Library) (now later : Z) (userData : SignupData)
    (st : Auth.AuthState) (b : Browser) (u : Auth.User) :
  checkUserExists (email userData) b = false ->
  u = Auth.newUser now (toISOString lib now) (Js.trim (name userData))
        (Js.lowerCase (email userData)) (userType userData) ->
  jwtDecode lib (issue lib now u)
    = Some {| Auth.payload_user := u; Auth.iat := now / 1000;
              Auth.exp := now / 1000 + 24 * 60 * 60 |} ->
  exists st1 b1 said,
    signup lib now userData st b = (st1, b1, said, Returned)
    /\ (later < (now / 1000 + 86400) * 1000 ->
        reload lib later b1
        = ({| Auth.user := Some u; Auth.isLoading := false |}, b1))
    /\ ((now / 1000 + 86400) * 1000 <= later ->
        reload lib later b1
        = ({| Auth.user := None; Auth.isLoading := false |}, setToken None b1)).
Proof.
  intros Hfree Hu Hdec.
  do 3 eexists.
  split; [exact (signup_success lib now userData st b u Hfree Hu Hdec)|].
  unfold reload, Auth.initializeAuth. cbn [token]. rewrite Hdec. cbn [Auth.exp].
  split; intros Hl.
  - assert (Hgt : ((now / 1000 + 24 * 60 * 60) * 1000 >? later) = true).
    { rewrite Z.gtb_ltb. apply Z.ltb_lt. lia. }
    rewrite Hgt. reflexivity.
  - assert (Hgt : ((now / 1000 + 24 * 60 * 60) * 1000 >? later) = false).
    { rewrite Z.gtb_ltb. apply Z.ltb_ge. lia. }
    rewrite Hgt. reflexivity.
Qed.

Lemma signup_session_lasts_a_day_witness :
  exists st1 b1 said,
    signup Sample.library 1714554000000 Sample.alice_form Auth.mount
      Sample.empty_browser = (st1, b1, said, Returned)
    /\ (1714600000000 < (1714554000000 / 1000 + 86400) * 1000 ->
        reload Sample.library 1714600000000 b1
        = ({| Auth.user := Some Sample.alice; Auth.isLoading := false |}, b1))
    /\ ((1714554000000 / 1000 + 86400) * 1000 <= 1714600000000 ->
        reload Sample.library 1714600000000 b1
        = ({| Auth.user := None; Auth.isLoading := false |}, setToken None b1)).
Proof.
  apply (signup_session_lasts_a_day Sample.library 1714554000000 1714600000000
           Sample.alice_form Auth.mount Sample.empty_browser Sample.alice);
    reflexivity.
Defined.

Lemma deleted_keys_lookup (keys : list string) (m : gmap string string) k :
  fold_left (fun m k => delete k m) keys m !! k
  = if bool_decide (k ∈ keys) then None else m !! k.
Proof.
  revert m. induction keys as [|x keys IH]; intros m; cbn [fold_left].
  - rewrite bool_decide_eq_false_2; [reflexivity|]. apply not_elem_of_nil.
  - rewrite IH. destruct (decide (k = x)) as [->|Hne].
    + rewrite lookup_delete_eq.
      rewrite (bool_decide_eq_true_2 (x ∈ x :: keys)) by apply list_elem_of_here.
      now case_bool_decide.
    + rewrite lookup_delete_ne by congruence.
      destruct (decide (k ∈ keys)) as [Hin|Hout].
      * rewrite !bool_decide_eq_true_2; auto. now apply list_elem_of_further.
      * rewrite !bool_decide_eq_false_2; auto.
        rewrite elem_of_cons. tauto.
Qed.

(** X21.  [resetUserData] keeps who the user is: id, name, address,
    role and user type are unchanged, so an admin stays an admin, while
    the counters, achievements and eligibility are cleared.  In the
    registered list exactly the entries with the user's id are replaced
    by the cleared identity, the list keeps its length, and the token is
    issued afresh for the cleared identity.  With nobody signed in
    nothing happens. *)
Theorem reset_keeps_the_identity
    (lib : Library) (now : Z) (st : Auth.AuthState) (b : Browser)
    (u : Auth.User) :
  Auth.user st = Some u ->
  exists u',
    fst (fst (resetUserData lib now st b))
      = {| Auth.user := Some u'; Auth.isLoading := Auth.isLoading st |}
    /\ Auth.id u' = Auth.id u /\ Auth.name u' = Auth.name u
    /\ Auth.email u' = Auth.email u
    /\ Auth.isAdmin (Some u') = Auth.isAdmin (Some u)
    /\ Auth.totalClassifications u' = 0 /\ Auth.classificationsCount u' = 0
    /\ Auth.achievements u' = [] /\ Auth.certificateEligible u' = false
    /\ token (snd (fst (resetUserData lib now st b))) = Some (issue lib now u')
    /\ length (registeredUsers (snd (fst (resetUserData lib now st b))))
       = length (registeredUsers b)
    /\ forall i x,
         registeredUsers b !! i = Some x ->
         registeredUsers (snd (fst (resetUserData lib now st b))) !! i
         = Some (if String.eqb (Auth.id x) (Auth.id u) then u' else x).
Proof.
  intros Hu. unfold resetUserData. rewrite Hu. cbn [fst snd].
  exists (cleared u). cbn [token registeredUsers].
  repeat (split; [reflexivity|]). split; [apply length_map|].
  intros i x Hi.
  change (List.map ?f (registeredUsers b)) with (f <$> registeredUsers b).
  now rewrite list_lookup_fmap, Hi.
Qed.

Lemma reset_keeps_the_identity_witness :
  exists u',
    fst (fst (resetUserData Sample.library 1714570000000
                {| Auth.user := Some Sample.bob; Auth.isLoading := false |}
                Sample.empty_browser))
      = {| Auth.user := Some u'; Auth.isLoading := false |}
    /\ Auth.id u' = Auth.id Sample.bob /\ Auth.name u' = Auth.name Sample.bob
    /\ Auth.email u' = Auth.email Sample.bob
    /\ Auth.isAdmin (Some u') = Auth.isAdmin (Some Sample.bob)
    /\ Auth.totalClassifications u' = 0 /\ Auth.classificationsCount u' = 0
    /\ Auth.achievements u' = [] /\ Auth.certificateEligible u' = false
    /\ token (snd (fst (resetUserData Sample.library 1714570000000
                          {| Auth.user := Some Sample.bob;
                             Auth.isLoading := false |}
                          Sample.empty_browser)))
       = Some (issue Sample.library 1714570000000 u')
    /\ length (registeredUsers
                 (snd (fst (resetUserData Sample.library 1714570000000
                              {| Auth.user := Some Sample.bob;
                                 Auth.isLoading := false |}
                              Sample.empty_browser))))
       = length (registeredUsers Sample.empty_browser)
    /\ forall i x,
         registeredUsers Sample.empty_browser !! i = Some x ->
         registeredUsers
           (snd (fst (resetUserData Sample.library 1714570000000
                        {| Auth.user := Some Sample.bob;
                           Auth.isLoading := false |}
                        Sample.empty_browser))) !! i
         = Some (if String.eqb (Auth.id x) (Auth.id Sample.bob) then u' else x).
Proof.
  apply (reset_keeps_the_identity Sample.library 1714570000000
           {| Auth.user := Some Sample.bob; Auth.isLoading := false |}
           Sample.empty_browser Sample.bob).
  reflexivity.
Defined.

(** X22.  [resetUserData] removes the user's four per-user storage
    items and no other: the user's classification list is gone, while
    the shared ['reports'] item, which holds every report including the
    user's own, and the classification list of every other identity are
    exactly as before. *)
Theorem reset_removes_the_four_user_keys_only
    (lib : Library) (now : Z) (st : Auth.AuthState) (b : Browser)
    (u : Auth.User) :
  Auth.user st = Some u ->
  (forall k, k ∈ userKeys (Auth.id u) ->
             others (snd (fst (resetUserData lib now st b))) !! k = None)
  /\ (forall k, k ∉ userKeys (Auth.id u) ->
                others (snd (fst (resetUserData lib now st b))) !! k
                = others b !! k)
  /\ others (snd (fst (resetUserData lib now st b)))
       !! Classification.key (Auth.id u) = None
  /\ others (snd (fst (resetUserData lib now st b))) !! "reports"
     = others b !! "reports"
  /\ (forall other, other <> Auth.id u ->
        others (snd (fst (resetUserData lib now st b)))
          !! Classification.key other
        = others b !! Classification.key other).
Proof.
  intros Hu. unfold resetUserData. rewrite Hu. cbn [fst snd others].
  assert (Hin : forall k, k ∈ userKeys (Auth.id u) ->
            fold_left (fun m k => delete k m) (userKeys (Auth.id u)) (others b)
              !! k = None).
  { intros k Hk. rewrite deleted_keys_lookup. now rewrite bool_decide_eq_true_2. }
  assert (Hout : forall k, k ∉ userKeys (Auth.id u) ->
            fold_left (fun m k => delete k m) (userKeys (Auth.id u)) (others b)
              !! k = others b !! k).
  { intros k Hk. rewrite deleted_keys_lookup. now rewrite bool_decide_eq_false_2. }
  split; [exact Hin|]. split; [exact Hout|]. split; [|split].
  - apply Hin. unfold userKeys, Classification.key. apply list_elem_of_here.
  - apply Hout. unfold userKeys. rewrite !elem_of_cons, elem_of_nil.
    cbn. intuition discriminate.
  - intros other Hne. apply Hout. unfold userKeys, Classification.key.
    rewrite !elem_of_cons, elem_of_nil. cbn.
    intros [E|[E|[E|[E|[]]]]]; try discriminate.
    inversion E. contradiction.
Qed.

Lemma reset_removes_the_four_user_keys_only_witness :
  let b' := snd (fst (resetUserData Sample.library 1714570000000
                        {| Auth.user := Some Sample.alice;
                           Auth.isLoading := false |}
                        Sample.empty_browser)) in
  (forall k, k ∈ userKeys (Auth.id Sample.alice) -> others b' !! k = None)
  /\ (forall k, k ∉ userKeys (Auth.id Sample.alice) ->
                others b' !! k = others Sample.empty_browser !! k)
  /\ others b' !! Classification.key (Auth.id Sample.alice) = None
  /\ others b' !! "reports" = others Sample.empty_browser !! "reports"
  /\ (forall other, other <> Auth.id Sample.alice ->
        others b' !! Classification.key other
        = others Sample.empty_browser !! Classification.key other).
Proof.
  apply (reset_removes_the_four_user_keys_only Sample.library 1714570000000
           {| Auth.user := Some Sample.alice; Auth.isLoading := false |}
           Sample.empty_browser Sample.alice).
  reflexivity.
Defined.

End Sessions.

(** ** The report form *)

Section ReportForm.

Import Notifications ReportsPage.

Lemma trimEnd_empty s :
  Js.trimEnd s = EmptyString
  <-> forallb Js.isWhiteSpace (list_ascii_of_string s) = true.
Proof.
  induction s as [|c r IH]; cbn; [tauto|].
  destruct (Js.trimEnd r) as [|d k] eqn:E.
  - destruct (Js.isWhiteSpace c); cbn; [tauto|].
    split; discriminate.
  - split; [discriminate|]. intros H. apply andb_true_iff in H as [_ H].
    apply IH in H. discriminate.
Qed.

Lemma trimStart_blank s :
  forallb Js.isWhiteSpace (list_ascii_of_string (Js.trimStart s))
  = forallb Js.isWhiteSpace (list_ascii_of_string s).
Proof.
  induction s as [|c r IH]; cbn; [reflexivity|].
  destruct (Js.isWhiteSpace c) eqn:E; cbn; [assumption|]. now rewrite E.
Qed.

Lemma trim_empty s :
  Js.trim s = EmptyString
  <-> forallb Js.isWhiteSpace (list_ascii_of_string s) = true.
Proof. unfold Js.trim. now rewrite trimEnd_empty, trimStart_blank. Qed.

Lemma trimStart_head s :
  Js.trimStart s = EmptyString
  \/ exists c r, Js.trimStart s = String c r /\ Js.isWhiteSpace c = false.
Proof.
  induction s as [|c r IH]; cbn; [now left|].
  destruct (Js.isWhiteSpace c) eqn:E; [assumption|]. right. eauto.
Qed.

Lemma trimEnd_idem s : Js.trimEnd (Js.trimEnd s) = Js.trimEnd s.
Proof.
  induction s as [|c r IH]; cbn; [reflexivity|].
  destruct (Js.trimEnd r) as [|d k] eqn:E.
  - destruct (Js.isWhiteSpace c) eqn:W; cbn; [reflexivity|]. now rewrite W.
  - change (Js.trimEnd (String c (String d k)))
      with (match Js.trimEnd (String d k) with
            | EmptyString =>
                if Js.isWhiteSpace c then EmptyString else String c EmptyString
            | kept => String c kept
            end).
    now rewrite IH.
Qed.

Lemma trim_idem s : Js.trim (Js.trim s) = Js.trim s.
Proof.
  unfold Js.trim.
  destruct (trimStart_head s) as [E|(c & r & E & W)]; rewrite E.
  - reflexivity.
  - assert (Hhead : exists k, Js.trimEnd (String c r) = String c k).
    { cbn. destruct (Js.trimEnd r); [rewrite W|]; eauto. }
    destruct Hhead as (k & Hk).
    assert (Hs : Js.trimStart (Js.trimEnd (String c r)) = Js.trimEnd (String c r)).
    { rewrite Hk. cbn. now rewrite W. }
    rewrite Hs. apply trimEnd_idem.
Qed.

(** X23.  The form refuses a title that is empty or made of white space
    only: it reports "Please enter a report title" and leaves the store
    and the form as they are.  Any other title, with nothing being
    edited and a user signed in, is passed to the store as typed: one
    report with that title is added and the form is closed and
    cleared. *)
Theorem form_refuses_blank_titles
    (describe : string -> string) (rd : Reports.Render) (now : Z)
    (form : Form) (s : Reports.Store) :
  (forallb Js.isWhiteSpace
     (list_ascii_of_string (title (newReportData form))) = true ->
   handleCreateReport describe rd now form s
   = (form, s, [Reports.say error "Please enter a report title"]))
  /\ (forallb Js.isWhiteSpace
        (list_ascii_of_string (title (newReportData form))) = false ->
      editingReport form = None ->
      forall u, Reports.user rd = Some u ->
      exists r,
        handleCreateReport describe rd now form s
        = ({| showCreateModal := false; editingReport := None;
              newReportData := blank |},
           {| Reports.cell := r :: Reports.cell s;
              Reports.stored := r :: Reports.stored s |},
           [Reports.say success "Report created successfully!"])
        /\ Reports.title r = title (newReportData form)
        /\ Reports.userId r = Auth.id u
        /\ Reports.tags r = parseTags (tags (newReportData form))).
Proof.
  unfold handleCreateReport. split.
  - intros Hblank. apply trim_empty in Hblank. now rewrite Hblank.
  - intros Hsome Hedit u Hu.
    destruct (String.eqb_spec (Js.trim (title (newReportData form))) "")
      as [E|E].
    + apply trim_empty in E. congruence.
    + rewrite Hedit. unfold Reports.createReport. rewrite Hu.
      eexists. split; [reflexivity|]. repeat split.
Qed.

Lemma split_pieces_no_separator sep s piece :
  In piece (Js.split sep s) -> ~ In sep (list_ascii_of_string piece).
Proof.
  revert piece. induction s as [|c r IH]; cbn; intros piece Hin.
  - destruct Hin as [<-|[]]. intros [].
  - destruct (Ascii.eqb_spec c sep) as [->|Hne].
    + destruct Hin as [<-|Hin]; [intros []|now apply IH].
    + destruct (Js.split sep r) as [|p ps] eqn:E.
      * destruct Hin as [<-|[]]. cbn. intuition.
      * destruct Hin as [<-|Hin].
        -- cbn. intros [->|H]; [contradiction|].
           revert H. apply IH. now left.
        -- apply IH. now right.
Qed.

Lemma trimStart_chars c s :
  In c (list_ascii_of_string (Js.trimStart s)) -> In c (list_ascii_of_string s).
Proof.
  induction s as [|d r IH]; cbn; [tauto|].
  destruct (Js.isWhiteSpace d); cbn; tauto.
Qed.

Lemma trimEnd_chars c s :
  In c (list_ascii_of_string (Js.trimEnd s)) -> In c (list_ascii_of_string s).
Proof.
  induction s as [|d r IH]; cbn; [tauto|].
  destruct (Js.trimEnd r) as [|e k].
  - destruct (Js.isWhiteSpace d); cbn; tauto.
  - cbn in *. tauto.
Qed.

(** X24.  Every tag the form derives from the comma-separated field is
    non-empty, has no white space at either end (trimming it again
    changes nothing) and contains no comma; a field holding only commas
    and white space yields no tag at all. *)
Theorem parsed_tags_are_clean (text : string) :
  (forall tag, In tag (parseTags text) ->
     tag <> EmptyString
     /\ Js.trim tag = tag
     /\ ~ In ","%char (list_ascii_of_string tag))
  /\ (forallb (fun c => Js.isWhiteSpace c || Ascii.eqb c ",")
        (list_ascii_of_string text) = true ->
      parseTags text = []).
Proof.
  unfold parseTags. split.
  - intros tag Hin. apply filter_In in Hin as [Hin Hne].
    apply in_map_iff in Hin as (piece & <- & Hpiece).
    split; [|split].
    + intros E. rewrite E in Hne. discriminate.
    + apply trim_idem.
    + intros Hc. apply (split_pieces_no_separator _ _ _ Hpiece).
      unfold Js.trim in Hc. now apply trimStart_chars, trimEnd_chars.
  - intros Hall.
    assert (Hpieces : forall piece, In piece (Js.split "," text) ->
              forallb Js.isWhiteSpace (list_ascii_of_string piece) = true).
    { revert Hall. induction text as [|c r IH]; cbn; intros Hall piece Hin.
      - now destruct Hin as [<-|[]].
      - apply andb_true_iff in Hall as [Hc Hr].
        destruct (Ascii.eqb c ",") eqn:E.
        + destruct Hin as [<-|Hin]; [reflexivity|now apply IH].
        + rewrite orb_false_r in Hc.
          destruct (Js.split "," r) as [|p ps] eqn:Es.
          * destruct Hin as [<-|[]]. cbn. now rewrite Hc.
          * destruct Hin as [<-|Hin].
            -- cbn. rewrite Hc. apply (IH Hr). now left.
            -- apply (IH Hr). now right. }
    induction (Js.split "," text) as [|p ps IH]; cbn; [reflexivity|].
    rewrite (proj2 (trim_empty p)) by (apply Hpieces; now left).
    cbn. apply IH. intros q Hq. apply Hpieces. now right.
Qed.

Lemma parsed_tags_are_clean_witness :
  parseTags " eco , ,e-waste,, " = ["eco"; "e-waste"]
  /\ parseTags " , ,," = [].
Proof.
  split; [reflexivity|].
  apply (proj2 (parsed_tags_are_clean " , ,,")). reflexivity.
Defined.

Lemma form_refuses_blank_titles_witness :
  handleCreateReport (fun text => text) (Sample.viewing (Some Sample.alice))
    1714570000000 (Sample.typed "   " "eco") Sample.shelf_store
  = (Sample.typed "   " "eco", Sample.shelf_store,
     [Reports.say error "Please enter a report title"]).
Proof.
  apply (proj1 (form_refuses_blank_titles (fun text => text)
                  (Sample.viewing (Some Sample.alice)) 1714570000000
                  (Sample.typed "   " "eco") Sample.shelf_store)).
  reflexivity.
Defined.

End ReportForm.
